(** * AgentFrameworkPython: configuration resolution and the interactive loop

    A shallow embedding of [config_helpers.py] and [main.py].

    - A Python [str] is a sequence of Unicode code points: [list N].
    - A Python [dict] with [str] keys is a [gmap] from such sequences.
    - A [pathlib.Path] obtained from [Path(__file__).resolve().parent] is
      absolute: the list of its components below the root.
    - Exceptions are values of [exn]; a call that may raise returns [result].
    - The file system, standard input and the chat service are the
      environment of [main]: they are parameters of its model, and what
      [main] does to them is recorded in a list of [event]s. *)

From Stdlib Require Import NArith ZArith Ascii String List Lia.
From stdpp Require Import base option list countable gmap fin_maps.

Set Warnings "-register-all".
Local Open Scope N_scope.

(* ===================================================================== *)
(** ** Python strings *)
(* ===================================================================== *)

Abbreviation pystr := (list N).

(** An ASCII literal of the source as a Python string. *)
Definition lit (s : string) : pystr := map N_of_ascii (list_ascii_of_string s).

(** [str.isspace] on one code point, as [str.strip] with no argument uses
    it: the code points whose bidirectional class is WS, B or S, or whose
    general category is Zs. *)
Definition py_isspace (c : N) : bool :=
  ((0x09 <=? c) && (c <=? 0x0D))
  || ((0x1C <=? c) && (c <=? 0x20))
  || (c =? 0x85) || (c =? 0xA0) || (c =? 0x1680)
  || ((0x2000 <=? c) && (c <=? 0x200A))
  || (c =? 0x2028) || (c =? 0x2029) || (c =? 0x202F)
  || (c =? 0x205F) || (c =? 0x3000).

Section Strip.
Context {A : Type} (ws : A -> bool).

(** [lstrip]: drop the leading run of white space. *)
Fixpoint lstrip_by (s : list A) : list A :=
  match s with
  | [] => []
  | c :: s' => if ws c then lstrip_by s' else s
  end.

(** [rstrip]: drop the trailing run of white space. *)
Definition rstrip_by (s : list A) : list A := rev (lstrip_by (rev s)).

Definition strip_by (s : list A) : list A := rstrip_by (lstrip_by s).
End Strip.

(** [s.strip()] *)
Definition strip (s : pystr) : pystr := strip_by py_isspace s.

(** Truth value of a string: [bool(s)], false exactly for the empty one. *)
Definition truthy (s : pystr) : bool :=
  match s with [] => false | _ :: _ => true end.

(** [sep.join(parts)] *)
Fixpoint join (sep : pystr) (parts : list pystr) : pystr :=
  match parts with
  | [] => []
  | [p] => p
  | p :: ps => p ++ sep ++ join sep ps
  end.

(** [s.split(sep)] for a one-character separator. *)
Fixpoint split_on (sep : N) (s : pystr) : list pystr :=
  match s with
  | [] => [[]]
  | c :: s' =>
      if c =? sep then [] :: split_on sep s'
      else match split_on sep s' with
           | l :: ls => (c :: l) :: ls
           | [] => [[c]]
           end
  end.

(** The UTF-8 encoding of a code point and of a string: the bytes of a
    string literal as main.py stores it. *)
Definition utf8_char (c : N) : list N :=
  if c <? 0x80 then [c]
  else if c <? 0x800 then [0xC0 + c / 0x40; 0x80 + c mod 0x40]
  else if c <? 0x10000 then
    [0xE0 + c / 0x1000; 0x80 + (c / 0x40) mod 0x40; 0x80 + c mod 0x40]
  else
    [0xF0 + c / 0x40000; 0x80 + (c / 0x1000) mod 0x40;
     0x80 + (c / 0x40) mod 0x40; 0x80 + c mod 0x40].

Definition utf8 (s : pystr) : list N := flat_map utf8_char s.

(* ===================================================================== *)
(** ** JSON values and exceptions *)
(* ===================================================================== *)

(** What [json.loads] produces. A float is kept as its binary64 bit
    pattern; the program never looks inside a number. *)
Inductive json : Type :=
  | JNull
  | JBool (b : bool)
  | JInt (n : Z)
  | JFloat (bits : Z)
  | JStr (s : pystr)
  | JArr (items : list json)
  | JObj (fields : gmap pystr json).

(** [dict[str, Any]], the declared result type of [load_json]. *)
Abbreviation dict := (gmap pystr json).

Inductive exn : Type :=
  | ValueError (msg : pystr)
  | FileNotFoundError (msg : pystr)
  | EOFError
  | KeyboardInterrupt
  | OtherError (tag : pystr).

Inductive result (A : Type) : Type :=
  | Ok (a : A)
  | Raise (e : exn).
Arguments Ok {A} a.
Arguments Raise {A} e.

(* ===================================================================== *)
(** ** config_helpers.py *)
(* ===================================================================== *)

(** [isinstance(value, str)] on the result of [config.get(key)]:
    [None] for an absent key. *)
Definition isinstance_str (value : option json) : option pystr :=
  match value with
  | Some (JStr s) => Some s
  | _ => None
  end.

Definition require_str_msg (key : pystr) : pystr :=
  key ++ lit " not found in appsettings.Development.json".

Definition require_str (config : dict) (key : pystr) : result pystr :=
  let value := config !! key in
  match isinstance_str value with
  | None => Raise (ValueError (require_str_msg key))
  | Some s =>
      if negb (truthy (strip s))
      then Raise (ValueError (require_str_msg key))
      else Ok s
  end.

(** A resolved path: the components below the root directory. *)
Abbreviation Path := (list pystr).

(** [p.parent]; the root is its own parent. *)
Definition parent (p : Path) : Path := removelast p.

(** [p / name] for a single component [name]. *)
Definition child (p : Path) (name : pystr) : Path := p ++ [name].
Infix "//" := child (at level 40, left associativity).

(** [str(p)] *)
Definition path_str (p : Path) : pystr := lit "/" ++ join (lit "/") p.

(** The newline character. *)
Definition nl : pystr := [10].

(** No newline in any component of a path. *)
Definition one_line (p : Path) : Prop := forall comp, comp ∈ p -> 10 ∉ comp.

Definition base_candidate (here : Path) : Path :=
  let solution_root := parent here in
  solution_root // lit "AgentFramework" // lit "appsettings.json".

Definition candidates (here : Path) : list Path :=
  let solution_root := parent here in
  [ here // lit "appsettings.Development.json";
    solution_root // lit "AgentFramework" // lit "appsettings.Development.json";
    solution_root // lit "AgentFramework" // lit "bin" // lit "Debug"
      // lit "net10.0" // lit "appsettings.Development.json" ].

Definition not_found_msg (cands : list Path) : pystr :=
  (lit "appsettings.Development.json not found. Expected one of:" ++ nl)
  ++ join nl (map (fun p => lit "- " ++ path_str p) cands).

Section Resolve.
(** [p.exists()] on the file system the program runs on. *)
Variable exists_ : Path -> bool.

Definition resolve_appsettings_paths (here : Path)
  : result (option Path * Path) :=
  let base := base_candidate here in
  let base_path := if exists_ base then Some base else None in
  let dev_path := find exists_ (candidates here) in
  match dev_path with
  | None => Raise (FileNotFoundError (not_found_msg (candidates here)))
  | Some dev_path => Ok (base_path, dev_path)
  end.
End Resolve.

(* ===================================================================== *)
(** ** main.py *)
(* ===================================================================== *)

(** The degree sign of the reply, U+00B0. *)
Definition degree : pystr := [0xB0].

Definition get_weather (location : pystr) : pystr :=
  lit "The weather in " ++ location
  ++ lit " is cloudy with a high of 15" ++ degree ++ lit "C.".

(** What [@ai_function(name=..., description=...)] makes of a function. *)
Record ai_function : Type := AIFunction {
  fn_name : pystr;
  fn_description : pystr;
  fn_call : pystr -> pystr
}.

Definition get_weather_tool : ai_function :=
  AIFunction (lit "get_weather")
             (lit "Get the weather for a given location.")
             get_weather.

(** One element of the stream [agent.run_stream] yields. *)
Record update : Type := Update { text : option pystr }.

(** A turn's stream as the driver sees it: the updates in arrival order
    and, when the stream fails, the exception that ends it. *)
Record stream : Type := Stream {
  updates : list update;
  failure : option exn
}.

(** The chat client library, used through four operations. The thread is
    the one object the library mutates across turns; its state is passed
    along. *)
Record chat_service : Type := ChatService {
  client : Type;
  agent : Type;
  thread : Type;
  AzureOpenAIChatClient :
    forall (endpoint deployment_name api_key : pystr), result client;
  create_agent :
    client -> forall (instructions : pystr) (tools : list ai_function)
                     (name : pystr), result agent;
  get_new_thread : agent -> result thread;
  run_stream : agent -> pystr -> thread -> stream * thread
}.

(** One call of [input]: it returns a line (without its newline) or raises
    [KeyboardInterrupt]; at the end of the list standard input is closed
    and it raises [EOFError]. *)
Inductive read : Type :=
  | Line (raw : pystr)
  | Interrupt.

(** What the program does to its environment, in order. *)
Inductive event : Type :=
  | Stdout (s : pystr)
  | Input (prompt : pystr)
  | ReadJson (p : Path)
  | NewClient (endpoint deployment_name api_key : pystr)
  | CreateAgent (instructions : pystr) (tools : list pystr) (name : pystr)
  | NewThread
  | RunStream (user_input : pystr).

(** A computation: the events so far, and a value or the exception that
    stopped it. *)
Definition M (A : Type) : Type := list event * result A.

#[global] Instance M_ret : MRet M := fun A a => ([], Ok a).
#[global] Instance M_bind : MBind M := fun A B f m =>
  match m with
  | (tr, Ok a) => let '(tr', r) := f a in (tr ++ tr', r)
  | (tr, Raise e) => (tr, Raise e)
  end.

Definition emit (e : event) : M unit := ([e], Ok tt).
Definition lift {A} (r : result A) : M A := ([], r).
Definition raise_opt (e : option exn) : M unit :=
  match e with Some e => ([], Raise e) | None => ([], Ok tt) end.

(** [print(s)] with the default [end]. *)
Definition print (s : pystr) : M unit := emit (Stdout (s ++ nl)).
(** [print(s, end='', flush=True)] *)
Definition print_flush (s : pystr) : M unit := emit (Stdout s).

(** [config |= d]: every key of [d] is set in [config]. *)
Definition dict_ior (config d : dict) : dict := d ∪ config.

(** What the terminal sends while [input] waits: a line ended by Enter, or
    Ctrl-C (SIGINT). The end of the list is Ctrl-D, the end of input. *)
Inductive key : Type :=
  | Enter (raw : pystr)
  | CtrlC.

(** [asyncio.run(main())], main.py 65, on CPython 3.11 and later: while the
    task runs, the runner has its own SIGINT handler. The first SIGINT asks
    for the main task to be cancelled and returns, so that an [input] that
    is waiting goes on waiting; every later SIGINT raises
    [KeyboardInterrupt]. [reads_of n keys] is what the successive calls of
    [input] return or raise on [keys], the runner having handled [n]
    SIGINTs before. *)
Fixpoint reads_of (interrupt_count : nat) (keys : list key) : list read :=
  match keys with
  | [] => []
  | Enter raw :: keys' => Line raw :: reads_of interrupt_count keys'
  | CtrlC :: keys' =>
      match interrupt_count with
      | O => reads_of 1 keys'
      | S _ => Interrupt :: reads_of (S interrupt_count) keys'
      end
  end.

(** Whether the runner's handler asked for the main task to be cancelled:
    it does at the first SIGINT. *)
Definition cancel_requested (keys : list key) : bool :=
  existsb (fun k => match k with CtrlC => true | Enter _ => false end) keys.

(** Whether the process ends with exit status 0. It does when [main]
    returns with no cancellation pending. When [main] returns with a
    cancellation pending, the task ends cancelled and [asyncio.run] raises
    [KeyboardInterrupt]; that, or any exception that leaves [main], ends
    the interpreter with a traceback and a status that is not 0 (130 for
    an interrupt, 1 otherwise). *)
Definition exits_zero {A} (cancel_pending : bool) (m : M A) : bool :=
  match m.2 with
  | Ok _ => negb cancel_pending
  | Raise _ => false
  end.

Definition events {A} (m : M A) : list event := m.1.

Definition prompt : pystr := lit "user> ".

Section Main.
Variable exists_ : Path -> bool.
(** [path.read_text(encoding="utf-8")] followed by [json.loads]. *)
Variable read_json : Path -> result dict.
Variable svc : chat_service.

Definition load_json (path : Path) : M dict :=
  emit (ReadJson path);; lift (read_json path).

(** Lines 23-27 of main.py. *)
Definition build_config (base_path : option Path) (dev_path : Path) : M dict :=
  let config : dict := ∅ in
  config ← match base_path with
           | Some base_path => d ← load_json base_path; mret (dict_ior config d)
           | None => mret config
           end;
  d ← load_json dev_path;
  mret (dict_ior config d).

(** The body of [async for update in agent.run_stream(...)]. *)
Fixpoint print_updates (us : list update) : M unit :=
  match us with
  | [] => mret tt
  | u :: us' =>
      match text u with
      | Some t => if truthy t then print_flush t else mret tt
      | None => mret tt
      end;;
      print_updates us'
  end.

(** The [while True] loop, by recursion on what standard input holds. *)
Fixpoint repl (a : agent svc) (th : thread svc) (stdin : list read) : M unit :=
  match stdin with
  | [] | Interrupt :: _ =>
      emit (Input prompt);;
      print [];;
      mret tt
  | Line raw :: rest =>
      emit (Input prompt);;
      let user_input := strip raw in
      if negb (truthy user_input) then repl a th rest
      else
        print_flush (lit "agent> ");;
        emit (RunStream user_input);;
        let '(s, th') := run_stream svc a user_input th in
        print_updates (updates s);;
        raise_opt (failure s);;
        print [];;
        repl a th' rest
  end.

(** Lines 24-31 of main.py: the three validated strings. *)
Definition resolved_settings (here : Path) : M (pystr * pystr * pystr) :=
  '(base_path, dev_path) ← lift (resolve_appsettings_paths exists_ here);
  config ← build_config base_path dev_path;
  model_name ← lift (require_str config (lit "ModelName"));
  endpoint ← lift (require_str config (lit "Endpoint"));
  api_key ← lift (require_str config (lit "ApiKey"));
  mret (model_name, endpoint, api_key).

Definition main (here : Path) (stdin : list read) : M unit :=
  print (lit "=== Running: AgentFrameworkPython ===");;
  '(model_name, endpoint, api_key) ← resolved_settings here;
  emit (NewClient endpoint model_name api_key);;
  c ← lift (AzureOpenAIChatClient svc endpoint model_name api_key);
  let instructions := lit "say 'just a second' before answering question" in
  emit (CreateAgent instructions [fn_name get_weather_tool] (lit "myagent"));;
  a ← lift (create_agent svc c instructions [get_weather_tool] (lit "myagent"));
  emit NewThread;;
  th ← lift (get_new_thread svc a);
  repl a th stdin.
End Main.

(* ===================================================================== *)
(** ** Concrete environments, used to run the model *)
(* ===================================================================== *)

Module Sample.
(** A file system given by the list of the files it holds. *)
Definition exists_in (files : list (Path * dict)) (p : Path) : bool :=
  bool_decide (p ∈ files.*1).

Definition read_in (files : list (Path * dict)) (p : Path) : result dict :=
  match list_to_map (M := gmap Path dict) files !! p with
  | Some d => Ok d
  | None => Raise (OtherError (lit "FileNotFoundError"))
  end.

(** A service that answers every turn with two fragments around an empty
    one and a missing one, and counts the turns in the thread. *)
Definition echo : chat_service :=
  {| client := unit; agent := unit; thread := nat;
     AzureOpenAIChatClient := fun _ _ _ => Ok tt;
     create_agent := fun _ _ _ _ => Ok tt;
     get_new_thread := fun _ => Ok 0%nat;
     run_stream := fun _ user_input n =>
       (Stream [Update (Some (lit "You said: ")); Update None;
                Update (Some []); Update (Some user_input)] None,
        S n) |}.

(** /repo/AgentFrameworkPython, the directory of main.py. *)
Definition here : Path := [lit "repo"; lit "AgentFrameworkPython"].

Definition base_doc : dict :=
  {[ lit "A" := JInt 1; lit "B" := JInt 2 ]}.
Definition dev_doc : dict :=
  {[ lit "B" := JInt 3; lit "C" := JInt 4 ]}.
Definition merged_doc : dict :=
  {[ lit "A" := JInt 1; lit "B" := JInt 3; lit "C" := JInt 4 ]}.

(** Both layers present, the development file next to main.py. *)
Definition two_layers : list (Path * dict) :=
  [ (base_candidate here, base_doc);
    (here // lit "appsettings.Development.json", dev_doc) ].

(** The development file of the validation example. *)
Definition blank_model_doc : dict :=
  {[ lit "ModelName" := JStr (lit "  ");
     lit "Endpoint" := JStr (lit "e");
     lit "ApiKey" := JStr (lit "k") ]}.

Definition blank_model_fs : list (Path * dict) :=
  [ (here // lit "appsettings.Development.json", blank_model_doc) ].

(** A valid development file with padded values and an extra key. *)
Definition valid_doc : dict :=
  {[ lit "ModelName" := JStr (lit " gpt ");
     lit "Endpoint" := JStr (lit "https://e");
     lit "ApiKey" := JStr (lit "k");
     lit "Extra" := JNull ]}.

Definition valid_fs : list (Path * dict) :=
  [ (parent here // lit "AgentFramework" // lit "appsettings.Development.json",
     valid_doc) ].
End Sample.

(* ===================================================================== *)
(** ** Observations on a run *)
(* ===================================================================== *)

(** The texts given to [run_stream], in order. *)
Definition submitted (tr : list event) : list pystr :=
  omap (fun e => match e with RunStream t => Some t | _ => None end) tr.

(** What [print] wrote to standard output, in order. *)
Definition stdout_text (tr : list event) : pystr :=
  flat_map (fun e => match e with Stdout s => s | _ => [] end) tr.

(** The fragment an update carries; nothing when its text is [None]. *)
Definition update_text (u : update) : pystr := default [] (text u).

(** The events of the loop: reads, prints and turns. *)
Definition loop_event (e : event) : Prop :=
  match e with
  | Stdout _ | Input _ | RunStream _ => True
  | _ => False
  end.

(** The three validations of main.py 29-31, in their order, on a
    configuration already built. *)
Definition validated (config : dict) : result (pystr * pystr * pystr) :=
  match require_str config (lit "ModelName") with
  | Raise x => Raise x
  | Ok m =>
      match require_str config (lit "Endpoint") with
      | Raise x => Raise x
      | Ok e =>
          match require_str config (lit "ApiKey") with
          | Raise x => Raise x
          | Ok k => Ok (m, e, k)
          end
      end
  end.

Module Faulty.
(** The service refuses the credentials. *)
Definition refusing : chat_service :=
  {| client := unit; agent := unit; thread := nat;
     AzureOpenAIChatClient := fun _ _ _ => Raise (OtherError (lit "auth"));
     create_agent := fun _ _ _ _ => Ok tt;
     get_new_thread := fun _ => Ok 0%nat;
     run_stream := fun _ _ n => (Stream [] None, S n) |}.

(** The client is built, the agent is not. *)
Definition no_agent : chat_service :=
  {| client := unit; agent := unit; thread := nat;
     AzureOpenAIChatClient := fun _ _ _ => Ok tt;
     create_agent := fun _ _ _ _ => Raise (OtherError (lit "agent"));
     get_new_thread := fun _ => Ok 0%nat;
     run_stream := fun _ _ n => (Stream [] None, S n) |}.

(** Every stream breaks after one fragment. *)
Definition broken_stream : chat_service :=
  {| client := unit; agent := unit; thread := nat;
     AzureOpenAIChatClient := fun _ _ _ => Ok tt;
     create_agent := fun _ _ _ _ => Ok tt;
     get_new_thread := fun _ => Ok 0%nat;
     run_stream := fun _ _ n =>
       (Stream [Update (Some (lit "just a")); Update (Some [])]
               (Some (OtherError (lit "reset"))),
        S n) |}.

(** A development file with none of the required values usable. *)
Definition all_bad_doc : dict :=
  {[ lit "ModelName" := JInt 5; lit "Endpoint" := JStr (lit " ") ]}.

Definition all_bad_fs : list (Path * dict) :=
  [ (Sample.here // lit "appsettings.Development.json", all_bad_doc) ].

(** The base file holds the model name, the development file the rest. *)
Definition base_with_model : dict :=
  {[ lit "ModelName" := JStr (lit "gpt"); lit "ApiKey" := JStr (lit "old") ]}.
Definition dev_without_model : dict :=
  {[ lit "Endpoint" := JStr (lit "https://e"); lit "ApiKey" := JStr (lit "k") ]}.

Definition layered_fs : list (Path * dict) :=
  [ (base_candidate Sample.here, base_with_model);
    (Sample.here // lit "appsettings.Development.json", dev_without_model) ].

(** The development file blanks out a model name the base file has. *)
Definition dev_blank_model : dict :=
  {[ lit "ModelName" := JStr (lit " "); lit "Endpoint" := JStr (lit "https://e");
     lit "ApiKey" := JStr (lit "k") ]}.

Definition shadowed_fs : list (Path * dict) :=
  [ (base_candidate Sample.here, base_with_model);
    (Sample.here // lit "appsettings.Development.json", dev_blank_model) ].

(** A base file that cannot be loaded. *)
Definition unreadable_base (p : Path) : result dict :=
  if bool_decide (p = base_candidate Sample.here)
  then Raise (OtherError (lit "JSONDecodeError"))
  else Ok Sample.dev_doc.

(** A development file that cannot be loaded. *)
Definition unreadable_dev (p : Path) : result dict :=
  if bool_decide (p = base_candidate Sample.here)
  then Ok Sample.base_doc
  else Raise (OtherError (lit "JSONDecodeError")).
End Faulty.

(** Closed facts decided by evaluation. *)
Ltac by_evaluation :=
  match goal with |- ?P => apply (bool_decide_unpack P) end;
  vm_compute; exact I.

(* ===================================================================== *)
(** ** Facts about stripping *)
(* ===================================================================== *)

Section StripFacts.
Context {A : Type} (ws : A -> bool).

Lemma lstrip_split (s : list A) :
  exists l, s = l ++ lstrip_by ws s /\ forallb ws l = true.
Proof.
  induction s as [|c s IH]; simpl.
  - exists []. split; reflexivity.
  - destruct (ws c) eqn:Hc.
    + destruct IH as (l & Hs & Hl). exists (c :: l). simpl.
      rewrite Hc, Hl. split; [f_equal; exact Hs | reflexivity].
    + exists []. split; reflexivity.
Qed.

Lemma lstrip_head (s : list A) c t :
  lstrip_by ws s = c :: t -> ws c = false.
Proof.
  induction s as [|d s IH]; simpl; [discriminate|].
  destruct (ws d) eqn:Hd; [exact IH|].
  intros [= -> _]. exact Hd.
Qed.

Lemma lstrip_nil (s : list A) :
  lstrip_by ws s = [] <-> forallb ws s = true.
Proof.
  induction s as [|c s IH]; simpl; [tauto|].
  destruct (ws c); simpl; [exact IH|].
  split; discriminate.
Qed.

Lemma lstrip_app_keep (x y : list A) c :
  ws c = false -> lstrip_by ws (x ++ c :: y) = lstrip_by ws x ++ c :: y.
Proof.
  intros Hc. induction x as [|d x IH]; simpl.
  - rewrite Hc. reflexivity.
  - destruct (ws d); [exact IH | reflexivity].
Qed.

Lemma forallb_rev (l : list A) : forallb ws (rev l) = forallb ws l.
Proof.
  induction l as [|c l IH]; simpl; [reflexivity|].
  rewrite forallb_app, IH. simpl. rewrite andb_true_r. apply andb_comm.
Qed.

Lemma rstrip_split (s : list A) :
  exists r, s = rstrip_by ws s ++ r /\ forallb ws r = true.
Proof.
  unfold rstrip_by.
  destruct (lstrip_split (rev s)) as (l & Hs & Hl).
  exists (rev l). split.
  - rewrite <- rev_app_distr, <- Hs, rev_involutive. reflexivity.
  - rewrite forallb_rev. exact Hl.
Qed.

Lemma rstrip_nil (s : list A) :
  rstrip_by ws s = [] <-> forallb ws s = true.
Proof.
  unfold rstrip_by. rewrite <- forallb_rev, <- lstrip_nil.
  split; intros H.
  - apply (f_equal (@rev A)) in H. rewrite rev_involutive in H. exact H.
  - rewrite H. reflexivity.
Qed.

Lemma rstrip_cons_keep c (t : list A) :
  ws c = false -> rstrip_by ws (c :: t) = c :: rstrip_by ws t.
Proof.
  intros Hc. unfold rstrip_by. simpl.
  rewrite lstrip_app_keep by exact Hc.
  rewrite rev_app_distr. reflexivity.
Qed.

Lemma rstrip_last (s : list A) c :
  last (rstrip_by ws s) = Some c -> ws c = false.
Proof.
  unfold rstrip_by. destruct (lstrip_by ws (rev s)) as [|d t] eqn:E.
  - discriminate.
  - simpl. rewrite last_snoc. intros [= <-]. eapply lstrip_head, E.
Qed.

(** What [strip] returns, in full: the argument is white space, then the
    result, then white space, and the result neither starts nor ends
    with white space. *)
Lemma strip_by_spec (s : list A) :
  (exists l r, s = l ++ strip_by ws s ++ r
               /\ forallb ws l = true /\ forallb ws r = true)
  /\ (forall c, head (strip_by ws s) = Some c -> ws c = false)
  /\ (forall c, last (strip_by ws s) = Some c -> ws c = false).
Proof.
  unfold strip_by. split; [|split].
  - destruct (lstrip_split s) as (l & Hs & Hl).
    destruct (rstrip_split (lstrip_by ws s)) as (r & Hr & Hr').
    exists l, r. split; [|split]; try assumption.
    rewrite <- Hr. exact Hs.
  - intros c. destruct (lstrip_by ws s) as [|d t] eqn:E; [discriminate|].
    pose proof (lstrip_head _ _ _ E) as Hd.
    rewrite rstrip_cons_keep by exact Hd. simpl. intros [= <-]. exact Hd.
  - intros c. apply rstrip_last.
Qed.

(** The result is empty exactly for a string of white space only. *)
Lemma strip_by_nil (s : list A) :
  strip_by ws s = [] <-> forallb ws s = true.
Proof.
  unfold strip_by. rewrite rstrip_nil.
  destruct (lstrip_split s) as (l & Hs & Hl).
  split; intros H.
  - rewrite Hs, forallb_app, Hl, H. reflexivity.
  - rewrite Hs, forallb_app in H. apply andb_true_iff in H. tauto.
Qed.

(** The decomposition of [strip_by_spec] has one solution. *)
Lemma strip_by_unique (l t r : list A) :
  forallb ws l = true -> forallb ws r = true ->
  (forall c, head t = Some c -> ws c = false) ->
  (forall c, last t = Some c -> ws c = false) ->
  strip_by ws (l ++ t ++ r) = t.
Proof.
  intros Hl Hr Hh Hla. unfold strip_by.
  assert (Hls : lstrip_by ws (l ++ t ++ r) = lstrip_by ws (t ++ r)).
  { clear -Hl. induction l as [|c l IH]; simpl; [reflexivity|].
    simpl in Hl. apply andb_true_iff in Hl as [Hc Hl].
    rewrite Hc. exact (IH Hl). }
  rewrite Hls. destruct t as [|c t].
  - simpl. apply lstrip_nil in Hr. rewrite Hr. reflexivity.
  - simpl. rewrite (Hh c eq_refl).
    unfold rstrip_by. change (c :: t ++ r) with ((c :: t) ++ r).
    rewrite rev_app_distr.
    destruct (exists_last (l := c :: t) ltac:(discriminate)) as (t' & z & E).
    rewrite E in *. rewrite last_snoc in Hla.
    rewrite rev_app_distr. simpl.
    assert (Hz : lstrip_by ws (rev r ++ z :: rev t') = z :: rev t').
    { rewrite lstrip_app_keep by (apply Hla; reflexivity).
      rewrite <- forallb_rev in Hr. apply lstrip_nil in Hr.
      rewrite Hr. reflexivity. }
    rewrite Hz. simpl. rewrite rev_involutive. reflexivity.
Qed.
End StripFacts.

(* ===================================================================== *)
(** ** Facts about the monad and the loop *)
(* ===================================================================== *)

Lemma strip_nil (s : pystr) : strip s = [] <-> forallb py_isspace s = true.
Proof. apply strip_by_nil. Qed.

Lemma truthy_false (s : pystr) : truthy s = false <-> s = [].
Proof. destruct s; simpl; split; congruence. Qed.

Lemma bind_emit {A} (e : event) (k : M A) :
  (emit e;; k) = (e :: k.1, k.2).
Proof. destruct k as [tr r]. reflexivity. Qed.

Section LoopFacts.
Variable svc : chat_service.

Lemma repl_eof (a : agent svc) (th : thread svc) :
  repl svc a th [] = ([Input prompt; Stdout nl], Ok tt).
Proof. reflexivity. Qed.

Lemma repl_interrupt (a : agent svc) (th : thread svc) rest :
  repl svc a th (Interrupt :: rest) = ([Input prompt; Stdout nl], Ok tt).
Proof. reflexivity. Qed.

Lemma repl_blank (a : agent svc) (th : thread svc) raw rest :
  strip raw = [] ->
  repl svc a th (Line raw :: rest)
  = (Input prompt :: (repl svc a th rest).1, (repl svc a th rest).2).
Proof.
  intros H. cbn [repl]. rewrite H. cbn [truthy negb].
  apply bind_emit.
Qed.

Lemma repl_turn (a : agent svc) (th : thread svc) raw rest :
  strip raw <> [] ->
  repl svc a th (Line raw :: rest)
  = (emit (Input prompt);;
     print_flush (lit "agent> ");;
     emit (RunStream (strip raw));;
     print_updates (updates (run_stream svc a (strip raw) th).1);;
     raise_opt (failure (run_stream svc a (strip raw) th).1);;
     print [];;
     repl svc a (run_stream svc a (strip raw) th).2 rest).
Proof.
  intros H. cbn [repl].
  destruct (strip raw) as [|c t] eqn:E; [congruence|].
  cbn [truthy negb].
  destruct (run_stream svc a (c :: t) th) as [s th']. reflexivity.
Qed.

(** Every run of the loop starts by showing the prompt and reading. *)
Lemma repl_starts_with_prompt (a : agent svc) (th : thread svc) stdin :
  exists tr, (repl svc a th stdin).1 = Input prompt :: tr.
Proof.
  destruct stdin as [|[raw|] rest].
  - eexists. reflexivity.
  - destruct (strip raw) as [|c t] eqn:E.
    + rewrite repl_blank by exact E. eexists. reflexivity.
    + rewrite repl_turn by congruence. rewrite bind_emit. eexists. reflexivity.
  - eexists. reflexivity.
Qed.
End LoopFacts.

Lemma bind_result {A B} (m : M A) (f : A -> M B) :
  (m ≫= f).2 = match m.2 with Ok a => (f a).2 | Raise e => Raise e end.
Proof.
  destruct m as [tr [a|e]]; [|reflexivity].
  unfold mbind, M_bind. cbn [snd]. destruct (f a). reflexivity.
Qed.

Lemma bind_events {A B} (m : M A) (f : A -> M B) :
  (m ≫= f).1 = m.1 ++ match m.2 with Ok a => (f a).1 | Raise _ => [] end.
Proof.
  destruct m as [tr [a|e]]; cbn [fst snd].
  - unfold mbind, M_bind. destruct (f a). reflexivity.
  - symmetry. apply app_nil_r.
Qed.

Lemma print_updates_ok (us : list update) : (print_updates us).2 = Ok tt.
Proof.
  induction us as [|[[t|]] us IH]; [reflexivity| |]; cbn [print_updates text].
  - destruct (truthy t); rewrite bind_result; exact IH.
  - rewrite bind_result. exact IH.
Qed.

Section LoopOutcome.
Variable svc : chat_service.

(** The loop ends by returning, unless a stream failed. *)
Lemma repl_outcome (stdin : list read) :
  forall (a : agent svc) (th : thread svc),
    (repl svc a th stdin).2 = Ok tt
    \/ exists user_input th0 e,
         failure (run_stream svc a user_input th0).1 = Some e
         /\ (repl svc a th stdin).2 = Raise e.
Proof.
  induction stdin as [|[raw|] rest IH]; intros a th.
  - left. reflexivity.
  - destruct (strip raw) as [|c t] eqn:E.
    + rewrite repl_blank by exact E. apply IH.
    + rewrite repl_turn by congruence. rewrite E.
      repeat (rewrite bind_result; cbn [emit print_flush print snd]).
      rewrite print_updates_ok.
      destruct (failure (run_stream svc a (c :: t) th).1) as [e|] eqn:F.
      * right. exists (c :: t), th, e. split; [exact F | reflexivity].
      * cbn [raise_opt snd]. apply IH.
  - left. reflexivity.
Qed.
End LoopOutcome.

(* ===================================================================== *)
(** ** The claims about the interactive loop *)
(* ===================================================================== *)

(** C7. When the line read is empty or holds white space only, that
    iteration does nothing but the read: no call of [run_stream], the
    thread unchanged, and the loop goes on by showing the prompt and
    reading the next line. *)
Theorem blank_line_skips_client (svc : chat_service)
    (a : agent svc) (th : thread svc) (raw : pystr) (rest : list read) :
  forallb py_isspace raw = true ->
  exists tr,
    (repl svc a th rest).1 = Input prompt :: tr
    /\ repl svc a th (Line raw :: rest)
       = (Input prompt :: Input prompt :: tr, (repl svc a th rest).2).
Proof.
  intros Hws. apply strip_nil in Hws.
  destruct (repl_starts_with_prompt svc a th rest) as [tr Htr].
  exists tr. split; [exact Htr|].
  rewrite repl_blank by exact Hws. rewrite Htr. reflexivity.
Qed.

Lemma blank_line_skips_client_witness :
  exists tr,
    (repl Sample.echo tt 0%nat [Line (lit "hi")]).1 = Input prompt :: tr
    /\ repl Sample.echo tt 0%nat [Line (lit "  "); Line (lit "hi")]
       = (Input prompt :: Input prompt :: tr,
          (repl Sample.echo tt 0%nat [Line (lit "hi")]).2).
Proof.
  apply (blank_line_skips_client Sample.echo tt 0%nat (lit "  ")
           [Line (lit "hi")]).
  reflexivity.
Defined.

(** C8. Under [asyncio.run], Ctrl-C at the read point does not end the
    loop with status 0. The first Ctrl-C is taken by the runner: [input]
    goes on waiting at the same prompt and returns the next line typed.
    When the loop then ends, on Ctrl-D or on a second Ctrl-C, the except
    clause prints the newline and [main] returns, but the cancellation is
    still pending (nothing was awaited since) and the exit status is not 0.
    End of input with no Ctrl-C before it does end with status 0. *)
Theorem interrupt_at_prompt_exits_nonzero (svc : chat_service)
    (a : agent svc) (th : thread svc) :
  (repl svc a th (reads_of 0 []) = ([Input prompt; Stdout nl], Ok tt)
   /\ exits_zero (cancel_requested []) (repl svc a th (reads_of 0 [])) = true)
  /\ (forall raw keys,
        reads_of 0 (CtrlC :: Enter raw :: keys) = Line raw :: reads_of 1 keys)
  /\ (repl svc a th (reads_of 0 [CtrlC]) = ([Input prompt; Stdout nl], Ok tt)
      /\ exits_zero (cancel_requested [CtrlC])
           (repl svc a th (reads_of 0 [CtrlC])) = false)
  /\ (forall rest,
        repl svc a th (reads_of 0 (CtrlC :: CtrlC :: rest))
        = ([Input prompt; Stdout nl], Ok tt)
        /\ exits_zero (cancel_requested (CtrlC :: CtrlC :: rest))
             (repl svc a th (reads_of 0 (CtrlC :: CtrlC :: rest))) = false).
Proof.
  split; [split; reflexivity|]. split; [reflexivity|].
  split; [split; reflexivity|]. intros rest. split; reflexivity.
Qed.



(* ===================================================================== *)
(** ** The claims about merging and validation *)
(* ===================================================================== *)

Lemma dict_ior_lookup (config d : dict) (k : pystr) :
  dict_ior config d !! k
  = match d !! k with Some v => Some v | None => config !! k end.
Proof.
  unfold dict_ior. rewrite lookup_union.
  destruct (d !! k), (config !! k); reflexivity.
Qed.

Lemma dict_ior_empty (d : dict) : dict_ior ∅ d = d.
Proof. unfold dict_ior. apply (right_id_L ∅ (∪)). Qed.

Lemma build_config_two_layers (read_json : Path -> result dict)
    (bp dp : Path) (base dev : dict) :
  read_json bp = Ok base -> read_json dp = Ok dev ->
  build_config read_json (Some bp) dp
  = ([ReadJson bp; ReadJson dp], Ok (dict_ior base dev)).
Proof.
  intros Hb Hd. unfold build_config, load_json, lift.
  rewrite Hb, Hd. cbn. rewrite dict_ior_empty. reflexivity.
Qed.

Lemma build_config_dev_only (read_json : Path -> result dict)
    (dp : Path) (dev : dict) :
  read_json dp = Ok dev ->
  build_config read_json None dp = ([ReadJson dp], Ok dev).
Proof.
  intros Hd. unfold build_config, load_json, lift.
  rewrite Hd. cbn. rewrite dict_ior_empty. reflexivity.
Qed.

(** C1. With both files loaded, the configuration [main] builds is the
    base document overridden key by key by the development document: a key
    of the development document has the development value, also when both
    values are objects (no deep merge); any other key is as in the base
    document. The spec's example merges to its stated result. *)
Theorem merge_is_shallow_override (read_json : Path -> result dict)
    (bp dp : Path) (base dev : dict) :
  read_json bp = Ok base -> read_json dp = Ok dev ->
  exists merged,
    (build_config read_json (Some bp) dp).2 = Ok merged
    /\ (forall k v, dev !! k = Some v -> merged !! k = Some v)
    /\ (forall k, dev !! k = None -> merged !! k = base !! k)
    /\ (forall k o o', base !! k = Some (JObj o) -> dev !! k = Some (JObj o') ->
                       merged !! k = Some (JObj o'))
    /\ (base = Sample.base_doc -> dev = Sample.dev_doc ->
        merged = Sample.merged_doc).
Proof.
  intros Hb Hd. exists (dict_ior base dev).
  rewrite (build_config_two_layers _ _ _ _ _ Hb Hd).
  split; [reflexivity|]. repeat split.
  - intros k v Hk. rewrite dict_ior_lookup, Hk. reflexivity.
  - intros k Hk. rewrite dict_ior_lookup, Hk. reflexivity.
  - intros k o o' _ Hk. rewrite dict_ior_lookup, Hk. reflexivity.
  - intros -> ->. vm_compute. reflexivity.
Qed.

Lemma merge_is_shallow_override_witness :
  exists merged,
    (build_config (Sample.read_in Sample.two_layers)
       (Some (base_candidate Sample.here))
       (Sample.here // lit "appsettings.Development.json")).2 = Ok merged
    /\ merged !! lit "A" = Some (JInt 1)
    /\ merged !! lit "B" = Some (JInt 3)
    /\ merged !! lit "C" = Some (JInt 4)
    /\ merged = Sample.merged_doc.
Proof.
  destruct (merge_is_shallow_override (Sample.read_in Sample.two_layers)
              (base_candidate Sample.here)
              (Sample.here // lit "appsettings.Development.json")
              Sample.base_doc Sample.dev_doc)
    as (merged & Hbuilt & Hdev & Hbase & _ & Hexample).
  - vm_compute. reflexivity.
  - vm_compute. reflexivity.
  - exists merged. split; [exact Hbuilt|]. split; [|split; [|split]].
    + rewrite Hbase by (vm_compute; reflexivity). vm_compute. reflexivity.
    + apply Hdev. vm_compute. reflexivity.
    + apply Hdev. vm_compute. reflexivity.
    + apply Hexample; reflexivity.
Defined.

Lemma require_str_ok (config : dict) (key s : pystr) :
  config !! key = Some (JStr s) -> forallb py_isspace s = false ->
  require_str config key = Ok s.
Proof.
  intros Hk Hs. unfold require_str. rewrite Hk. cbn [isinstance_str].
  destruct (strip s) as [|c t] eqn:E; [|reflexivity].
  apply strip_nil in E. congruence.
Qed.

Lemma require_str_cases (config : dict) (key : pystr) :
  (exists s, config !! key = Some (JStr s)
             /\ forallb py_isspace s = false
             /\ require_str config key = Ok s)
  \/ ((config !! key = None
       \/ (exists v, config !! key = Some v /\ forall s, v <> JStr s)
       \/ (exists s, config !! key = Some (JStr s) /\ strip s = []))
      /\ require_str config key = Raise (ValueError (require_str_msg key))).
Proof.
  unfold require_str.
  destruct (config !! key) as [v|] eqn:Hk; cbn [isinstance_str].
  2:{ right. split; [left|]; reflexivity. }
  destruct v as [ |b|n|f|s|items|fields];
    try (right; split; [right; left; eexists; split;
                        [reflexivity | intros s'; discriminate]
                       | reflexivity]).
  destruct (strip s) as [|c t] eqn:E; cbn [truthy negb].
  - right. split; [|reflexivity]. right. right. exists s. split; [reflexivity|exact E].
  - left. exists s. split; [reflexivity|]. split; [|reflexivity].
    destruct (forallb py_isspace s) eqn:F; [|reflexivity].
    apply strip_nil in F. congruence.
Qed.

(** C2. [require_str] raises exactly when the key is absent, or its value
    is not a string, or the string stripped of white space is empty (that
    is, every character of it is white space). What it raises is a
    [ValueError] whose message is the key followed by
    " not found in appsettings.Development.json", whichever file the value
    came from; otherwise it returns the value as it is. With the spec's
    development file, [main] stops on [ModelName]. *)
Theorem require_str_validation (config : dict) (key : pystr) :
  ((exists e, require_str config key = Raise e)
   <-> (config !! key = None
        \/ (exists v, config !! key = Some v /\ forall s, v <> JStr s)
        \/ (exists s, config !! key = Some (JStr s) /\ strip s = [])))
  /\ (forall s, strip s = [] <-> forallb py_isspace s = true)
  /\ (forall e, require_str config key = Raise e ->
        e = ValueError
              (key ++ lit " not found in appsettings.Development.json"))
  /\ (forall (base dev : dict) v,
        dev !! key = None -> base !! key = Some v ->
        (forall s, v <> JStr s) ->
        require_str (dict_ior (dict_ior ∅ base) dev) key
        = Raise (ValueError
                   (key ++ lit " not found in appsettings.Development.json")))
  /\ (forall svc stdin,
        (main (Sample.exists_in Sample.blank_model_fs)
              (Sample.read_in Sample.blank_model_fs) svc Sample.here stdin).2
        = Raise (ValueError
                   (lit "ModelName not found in appsettings.Development.json"))).
Proof.
  pose proof (require_str_cases config key) as Hc.
  split; [|split; [exact strip_nil|split; [|split]]].
  - split.
    + intros [e He].
      destruct Hc as [(s & _ & _ & Hok)|[Hwhy _]]; [congruence | exact Hwhy].
    + intros Hwhy.
      destruct Hc as [(s & Hk & Hs & _)|[_ Hr]]; [|eexists; exact Hr].
      exfalso. destruct Hwhy as [Hn|[(v & Hv & Hns)|(s' & Hs' & Hnil)]].
      * congruence.
      * rewrite Hk in Hv. injection Hv as <-. exact (Hns s eq_refl).
      * rewrite Hk in Hs'. injection Hs' as <-.
        apply strip_nil in Hnil. congruence.
  - intros e He.
    destruct Hc as [(s & _ & _ & Hok)|[_ Hr]]; [congruence|].
    rewrite Hr in He. injection He as <-. reflexivity.
  - intros base dev v Hd Hb Hv.
    destruct (require_str_cases (dict_ior (dict_ior ∅ base) dev) key)
      as [(s & Hk & _)|[_ Hr]]; [|exact Hr].
    rewrite dict_ior_lookup, Hd, dict_ior_empty, Hb in Hk.
    injection Hk as ->. destruct (Hv s eq_refl).
  - intros svc stdin. vm_compute. reflexivity.
Qed.

(* ===================================================================== *)
(** ** The claims about path resolution *)
(* ===================================================================== *)

(** [next((p for p in l if f(p)), None)]: the first element that passes,
    all before it failing. *)
Lemma find_first {A} (f : A -> bool) (l : list A) (x : A) :
  find f l = Some x
  <-> exists i, l !! i = Some x /\ f x = true
                /\ forall j c, (j < i)%nat -> l !! j = Some c -> f c = false.
Proof.
  induction l as [|a l IH]; simpl.
  - split; [discriminate|]. intros (i & Hi & _). destruct i; discriminate.
  - destruct (f a) eqn:Fa.
    + split.
      * intros [= <-]. exists 0%nat. repeat split; [exact Fa|]. intros j c Hj. lia.
      * intros (i & Hi & Hx & Hbefore). destruct i as [|i]; [exact Hi|].
        specialize (Hbefore 0%nat a ltac:(lia) eq_refl). congruence.
    + rewrite IH. split.
      * intros (i & Hi & Hx & Hbefore). exists (S i). repeat split; try assumption.
        intros [|j] c Hj Hc.
        -- injection Hc as <-. exact Fa.
        -- apply (Hbefore j); [lia | exact Hc].
      * intros (i & Hi & Hx & Hbefore). destruct i as [|i].
        -- injection Hi as ->. congruence.
        -- exists i. repeat split; try assumption.
           intros j c Hj Hc. apply (Hbefore (S j)); [lia | exact Hc].
Qed.

Lemma find_none {A} (f : A -> bool) (l : list A) :
  find f l = None <-> forall c, c ∈ l -> f c = false.
Proof.
  induction l as [|a l IH]; simpl.
  - split; [|reflexivity]. intros _ c Hc. inversion Hc.
  - destruct (f a) eqn:Fa.
    + split; [discriminate|]. intros H. rewrite H in Fa; [discriminate|left].
    + rewrite IH. split.
      * intros H c Hc. apply elem_of_cons in Hc as [->|Hc]; [exact Fa | exact (H c Hc)].
      * intros H c Hc. apply H. right. exact Hc.
Qed.

(** C3. There are exactly three development candidates, in this order:
    next to the entry point, in the parent's AgentFramework directory, and
    in bin/Debug/net10.0 under that directory. Resolution succeeds with
    [dev] exactly when [dev] is the first of them that exists: every
    candidate before it is missing, and nothing after it is looked at. *)
Theorem first_existing_candidate_wins (exists_ : Path -> bool) (here : Path) :
  candidates here
  = [ here // lit "appsettings.Development.json";
      parent here // lit "AgentFramework" // lit "appsettings.Development.json";
      parent here // lit "AgentFramework" // lit "bin" // lit "Debug"
        // lit "net10.0" // lit "appsettings.Development.json" ]
  /\ forall b dev,
       resolve_appsettings_paths exists_ here = Ok (b, dev)
       <-> (b = (if exists_ (base_candidate here)
                 then Some (base_candidate here) else None)
            /\ exists i, candidates here !! i = Some dev
                         /\ exists_ dev = true
                         /\ forall j c, (j < i)%nat ->
                                        candidates here !! j = Some c ->
                                        exists_ c = false).
Proof.
  split; [reflexivity|]. intros b dev.
  rewrite <- find_first. unfold resolve_appsettings_paths.
  destruct (find exists_ (candidates here)) as [d|].
  - split.
    + intros [= <- <-]. split; reflexivity.
    + intros [-> [= ->]]. reflexivity.
  - split; [discriminate|]. intros [_ H]. discriminate.
Qed.

Lemma base_not_a_candidate (here : Path) :
  base_candidate here ∉ candidates here.
Proof.
  unfold base_candidate, candidates, child. intros H.
  repeat (apply elem_of_cons in H as [H|H];
          [apply app_inj_tail in H as [_ H]; vm_compute in H; discriminate|]).
  inversion H.
Qed.

(** C6. The base file has one fixed location, AgentFramework/appsettings.json
    under the parent, which is none of the development candidates. When it
    is missing and some development candidate exists, resolution succeeds
    with no base path. *)
Theorem missing_base_is_not_an_error (exists_ : Path -> bool) (here : Path) :
  exists_ (base_candidate here) = false ->
  (exists c, c ∈ candidates here /\ exists_ c = true) ->
  base_candidate here
  = parent here // lit "AgentFramework" // lit "appsettings.json"
  /\ (base_candidate here ∉ candidates here)
  /\ exists dev,
       resolve_appsettings_paths exists_ here = Ok (None, dev)
       /\ dev ∈ candidates here /\ exists_ dev = true.
Proof.
  intros Hbase (c & Hc & Hex).
  split; [reflexivity|]. split; [apply base_not_a_candidate|].
  unfold resolve_appsettings_paths. rewrite Hbase.
  destruct (find exists_ (candidates here)) as [d|] eqn:F.
  - exists d. split; [reflexivity|].
    apply find_first in F as (i & Hi & Hd & _).
    split; [|exact Hd]. apply list_elem_of_lookup. exists i. exact Hi.
  - rewrite find_none in F. rewrite (F c Hc) in Hex. discriminate.
Qed.

Lemma missing_base_is_not_an_error_witness :
  base_candidate Sample.here
  = parent Sample.here // lit "AgentFramework" // lit "appsettings.json"
  /\ (base_candidate Sample.here ∉ candidates Sample.here)
  /\ exists dev,
       resolve_appsettings_paths (Sample.exists_in Sample.valid_fs) Sample.here
       = Ok (None, dev)
       /\ dev ∈ candidates Sample.here
       /\ Sample.exists_in Sample.valid_fs dev = true.
Proof.
  apply (missing_base_is_not_an_error (Sample.exists_in Sample.valid_fs)
           Sample.here).
  - vm_compute. reflexivity.
  - exists (parent Sample.here // lit "AgentFramework"
              // lit "appsettings.Development.json").
    split; [|vm_compute; reflexivity].
    right. left.
Defined.

(* ===================================================================== *)
(** ** The claims about the settings and the tool *)
(* ===================================================================== *)

(** C5. With no base file and a development document whose three required
    values are strings with a character that is not white space,
    [main] obtains exactly these three strings, untrimmed, whatever else
    the document holds, reads no other file, and builds the client from
    them. *)
Theorem dev_only_settings_are_verbatim
    (exists_ : Path -> bool) (read_json : Path -> result dict)
    (here dev_path : Path) (dev : dict) (m e k : pystr) :
  resolve_appsettings_paths exists_ here = Ok (None, dev_path) ->
  read_json dev_path = Ok dev ->
  dev !! lit "ModelName" = Some (JStr m) -> forallb py_isspace m = false ->
  dev !! lit "Endpoint" = Some (JStr e) -> forallb py_isspace e = false ->
  dev !! lit "ApiKey" = Some (JStr k) -> forallb py_isspace k = false ->
  resolved_settings exists_ read_json here
  = ([ReadJson dev_path], Ok (m, e, k))
  /\ forall svc stdin, exists tr,
       events (main exists_ read_json svc here stdin)
       = Stdout (lit "=== Running: AgentFrameworkPython ===" ++ nl)
         :: ReadJson dev_path :: NewClient e m k :: tr.
Proof.
  intros Hres Hread Hm Hm' He He' Hk Hk'.
  assert (Hset : resolved_settings exists_ read_json here
                 = ([ReadJson dev_path], Ok (m, e, k))).
  { unfold resolved_settings. rewrite Hres. cbn [lift mbind M_bind].
    rewrite (build_config_dev_only _ _ _ Hread). cbn [lift mbind M_bind].
    rewrite (require_str_ok _ _ _ Hm Hm'). cbn [lift mbind M_bind].
    rewrite (require_str_ok _ _ _ He He'). cbn [lift mbind M_bind].
    rewrite (require_str_ok _ _ _ Hk Hk'). reflexivity. }
  split; [exact Hset|]. intros svc stdin.
  unfold events, main. rewrite Hset.
  unfold print. rewrite bind_emit. cbn [fst].
  rewrite bind_events. cbn [fst snd app]. rewrite bind_emit. cbn [fst].
  eexists. reflexivity.
Qed.

Lemma dev_only_settings_are_verbatim_witness :
  resolved_settings (Sample.exists_in Sample.valid_fs)
    (Sample.read_in Sample.valid_fs) Sample.here
  = ([ReadJson (parent Sample.here // lit "AgentFramework"
                  // lit "appsettings.Development.json")],
     Ok (lit " gpt ", lit "https://e", lit "k"))
  /\ forall svc stdin, exists tr,
       events (main (Sample.exists_in Sample.valid_fs)
                 (Sample.read_in Sample.valid_fs) svc Sample.here stdin)
       = Stdout (lit "=== Running: AgentFrameworkPython ===" ++ nl)
         :: ReadJson (parent Sample.here // lit "AgentFramework"
                        // lit "appsettings.Development.json")
         :: NewClient (lit "https://e") (lit " gpt ") (lit "k") :: tr.
Proof.
  apply (dev_only_settings_are_verbatim (Sample.exists_in Sample.valid_fs)
           (Sample.read_in Sample.valid_fs) Sample.here
           (parent Sample.here // lit "AgentFramework"
              // lit "appsettings.Development.json")
           Sample.valid_doc (lit " gpt ") (lit "https://e") (lit "k"));
    vm_compute; reflexivity.
Defined.

Lemma utf8_app (s t : pystr) : utf8 (s ++ t) = utf8 s ++ utf8 t.
Proof. apply flat_map_app. Qed.

(** C9. [get_weather] is a function of its argument alone: the fixed text
    around the location, the degree sign being U+00B0. Equal locations
    give equal replies, different locations different ones, and the reply
    is the text of main.py with the location put in. The registered tool
    is this function under the name get_weather. *)
Theorem get_weather_fixed_format (location : pystr) :
  get_weather location
  = lit "The weather in " ++ location
    ++ lit " is cloudy with a high of 15" ++ [0xB0] ++ lit "C."
  /\ (forall other, other = location ->
                    get_weather other = get_weather location)
  /\ (forall other, get_weather other = get_weather location ->
                    other = location)
  /\ utf8 (get_weather location)
     = lit "The weather in " ++ utf8 location
       ++ lit " is cloudy with a high of 15°C."
  /\ fn_name get_weather_tool = lit "get_weather"
  /\ fn_call get_weather_tool location = get_weather location.
Proof.
  split; [reflexivity|]. split; [intros other ->; reflexivity|].
  split; [|split; [|split; reflexivity]].
  - unfold get_weather. intros other H.
    apply app_inv_head in H. rewrite !app_assoc in H.
    apply app_inv_tail in H. apply app_inv_tail in H.
    apply app_inv_tail in H. exact H.
  - unfold get_weather. rewrite !utf8_app. reflexivity.
Qed.

(* ===================================================================== *)
(** ** The not-found message *)
(* ===================================================================== *)

Lemma split_on_no_sep (sep : N) (s : pystr) :
  sep ∉ s -> split_on sep s = [s].
Proof.
  induction s as [|c s IH]; intros H; simpl; [reflexivity|].
  apply not_elem_of_cons in H as [Hc Hs].
  destruct (N.eqb_spec c sep) as [->|_]; [congruence|].
  rewrite (IH Hs). reflexivity.
Qed.

Lemma split_on_app (sep : N) (a b : pystr) :
  sep ∉ a -> split_on sep (a ++ sep :: b) = a :: split_on sep b.
Proof.
  induction a as [|c a IH]; intros H; simpl.
  - rewrite N.eqb_refl. reflexivity.
  - apply not_elem_of_cons in H as [Hc Ha].
    destruct (N.eqb_spec c sep) as [->|_]; [congruence|].
    rewrite (IH Ha). reflexivity.
Qed.

Lemma join_avoids (x : N) (sep : pystr) (parts : list pystr) :
  x ∉ sep -> (forall p, p ∈ parts -> x ∉ p) -> x ∉ join sep parts.
Proof.
  intros Hsep. induction parts as [|p ps IH]; intros H.
  - apply not_elem_of_nil.
  - assert (Hp : x ∉ p) by (apply H; left).
    assert (Hps : x ∉ join sep ps) by (apply IH; intros q Hq; apply H; right; exact Hq).
    destruct ps as [|q ps]; [exact Hp|].
    change (x ∉ p ++ sep ++ join sep (q :: ps)).
    rewrite !not_elem_of_app. auto.
Qed.

Lemma elem_of_parent (p : Path) (comp : pystr) :
  comp ∈ parent p -> comp ∈ p.
Proof.
  unfold parent. induction p as [|a p IH]; simpl; [auto|].
  destruct p as [|b p]; [intros H; inversion H|].
  intros H. apply elem_of_cons in H as [->|H]; [left | right; exact (IH H)].
Qed.

Lemma one_line_parent (p : Path) : one_line p -> one_line (parent p).
Proof. intros H comp Hc. apply H, elem_of_parent, Hc. Qed.

Lemma one_line_child (p : Path) (name : pystr) :
  one_line p -> 10 ∉ name -> one_line (p // name).
Proof.
  intros Hp Hn comp Hc. unfold child in Hc.
  apply elem_of_app in Hc as [Hc|Hc]; [exact (Hp comp Hc)|].
  apply list_elem_of_singleton in Hc as ->. exact Hn.
Qed.

Lemma path_str_one_line (p : Path) : one_line p -> 10 ∉ path_str p.
Proof.
  intros Hp. unfold path_str. apply not_elem_of_app. split.
  - by_evaluation.
  - apply join_avoids; [|exact Hp].
    by_evaluation.
Qed.

Lemma entry_one_line (p : Path) : one_line p -> 10 ∉ lit "- " ++ path_str p.
Proof.
  intros Hp. apply not_elem_of_app. split; [|apply path_str_one_line, Hp].
  by_evaluation.
Qed.

(** C4. When none of the three candidates exists, resolution raises
    [FileNotFoundError]; its message is the heading and then, each after a
    newline, "- " and one candidate path as [str] prints it, in the order
    tried. [main] stops there: it has printed its banner, read no file and
    built no client. When no directory name holds a newline, the lines of
    the message are the heading and one line per path. *)
Theorem no_candidate_reports_all_paths
    (exists_ : Path -> bool) (read_json : Path -> result dict)
    (svc : chat_service) (here : Path) (stdin : list read) :
  (forall c, c ∈ candidates here -> exists_ c = false) ->
  let c1 := here // lit "appsettings.Development.json" in
  let c2 := parent here // lit "AgentFramework"
              // lit "appsettings.Development.json" in
  let c3 := parent here // lit "AgentFramework" // lit "bin" // lit "Debug"
              // lit "net10.0" // lit "appsettings.Development.json" in
  let heading :=
    lit "appsettings.Development.json not found. Expected one of:" in
  let msg := heading ++ nl ++ (lit "- " ++ path_str c1)
                     ++ nl ++ (lit "- " ++ path_str c2)
                     ++ nl ++ (lit "- " ++ path_str c3) in
  resolve_appsettings_paths exists_ here = Raise (FileNotFoundError msg)
  /\ main exists_ read_json svc here stdin
     = ([Stdout (lit "=== Running: AgentFrameworkPython ===" ++ nl)],
        Raise (FileNotFoundError msg))
  /\ (forall endpoint deployment_name api_key,
        NewClient endpoint deployment_name api_key
        ∉ events (main exists_ read_json svc here stdin))
  /\ (one_line here ->
      split_on 10 msg
      = [heading; lit "- " ++ path_str c1; lit "- " ++ path_str c2;
         lit "- " ++ path_str c3]).
Proof.
  intros Hnone c1 c2 c3 heading msg.
  assert (Hres : resolve_appsettings_paths exists_ here
                 = Raise (FileNotFoundError msg)).
  { unfold resolve_appsettings_paths.
    apply find_none in Hnone. rewrite Hnone.
    reflexivity. }
  assert (Hmain : main exists_ read_json svc here stdin
     = ([Stdout (lit "=== Running: AgentFrameworkPython ===" ++ nl)],
        Raise (FileNotFoundError msg))).
  { unfold main, resolved_settings. rewrite Hres. reflexivity. }
  split; [exact Hres|]. split; [exact Hmain|]. split.
  - intros ep dn ak. rewrite Hmain. unfold events. cbn [fst].
    intros H. apply list_elem_of_singleton in H. discriminate.
  - intros Hhere.
    assert (H1 : one_line c1) by (apply one_line_child; [exact Hhere | by_evaluation]).
    assert (Hroot : one_line (parent here // lit "AgentFramework"))
      by (apply one_line_child; [apply one_line_parent, Hhere | by_evaluation]).
    assert (H2 : one_line c2) by (apply one_line_child; [exact Hroot | by_evaluation]).
    assert (H3 : one_line c3)
      by (do 4 (apply one_line_child; [|by_evaluation]); exact Hroot).
    subst msg. unfold nl.
    change (heading ++ [10] ++ ?x) with (heading ++ 10 :: x).
    rewrite split_on_app by (subst heading; by_evaluation).
    change ((lit "- " ++ path_str c1) ++ [10] ++ ?x)
      with ((lit "- " ++ path_str c1) ++ 10 :: x).
    rewrite split_on_app by (apply entry_one_line, H1).
    change ((lit "- " ++ path_str c2) ++ [10] ++ ?x)
      with ((lit "- " ++ path_str c2) ++ 10 :: x).
    rewrite split_on_app by (apply entry_one_line, H2).
    rewrite split_on_no_sep by (apply entry_one_line, H3).
    reflexivity.
Qed.

Lemma one_line_sample_here : one_line Sample.here.
Proof.
  intros comp Hc. unfold Sample.here in Hc.
  repeat (apply elem_of_cons in Hc as [->|Hc]; [by_evaluation|]).
  inversion Hc.
Qed.

Lemma no_candidate_reports_all_paths_witness :
  let msg :=
    lit "appsettings.Development.json not found. Expected one of:" ++ nl
    ++ lit "- /repo/AgentFrameworkPython/appsettings.Development.json" ++ nl
    ++ lit "- /repo/AgentFramework/appsettings.Development.json" ++ nl
    ++ lit "- /repo/AgentFramework/bin/Debug/net10.0/appsettings.Development.json"
  in
  resolve_appsettings_paths (Sample.exists_in []) Sample.here
  = Raise (FileNotFoundError msg)
  /\ main (Sample.exists_in []) (Sample.read_in []) Sample.echo Sample.here []
     = ([Stdout (lit "=== Running: AgentFrameworkPython ===" ++ nl)],
        Raise (FileNotFoundError msg))
  /\ split_on 10 msg
     = [ lit "appsettings.Development.json not found. Expected one of:";
         lit "- /repo/AgentFrameworkPython/appsettings.Development.json";
         lit "- /repo/AgentFramework/appsettings.Development.json";
         lit "- /repo/AgentFramework/bin/Debug/net10.0/appsettings.Development.json" ].
Proof.
  destruct (no_candidate_reports_all_paths (Sample.exists_in [])
              (Sample.read_in []) Sample.echo Sample.here [])
    as (Hres & Hmain & _ & Hlines).
  - intros c _. reflexivity.
  - split; [exact Hres|]. split; [exact Hmain|].
    exact (Hlines one_line_sample_here).
Defined.

(* ===================================================================== *)
(** ** Runs of the model *)
(* ===================================================================== *)

Example strip_keeps_inner_space :
  strip (lit "  hi  there ") = lit "hi  there".
Proof. reflexivity. Qed.

Example strip_unicode_space : strip [0xA0; 0x3000; 65; 0x2028] = [65].
Proof. reflexivity. Qed.

Example resolve_second_candidate :
  resolve_appsettings_paths (Sample.exists_in Sample.valid_fs) Sample.here
  = Ok (None,
        [lit "repo"; lit "AgentFramework"; lit "appsettings.Development.json"]).
Proof. vm_compute. reflexivity. Qed.

Example resolve_first_of_two :
  resolve_appsettings_paths
    (Sample.exists_in
       [ (parent Sample.here // lit "AgentFramework"
            // lit "appsettings.Development.json", Sample.valid_doc);
         (Sample.here // lit "appsettings.Development.json", Sample.dev_doc);
         (base_candidate Sample.here, Sample.base_doc) ])
    Sample.here
  = Ok (Some [lit "repo"; lit "AgentFramework"; lit "appsettings.json"],
        [lit "repo"; lit "AgentFrameworkPython";
         lit "appsettings.Development.json"]).
Proof. vm_compute. reflexivity. Qed.

Example session :
  main (Sample.exists_in Sample.valid_fs) (Sample.read_in Sample.valid_fs)
       Sample.echo Sample.here
       [Line (lit "  "); Line (lit " hi there "); Interrupt; Line (lit "x")]
  = ([ Stdout (lit "=== Running: AgentFrameworkPython ===" ++ nl);
       ReadJson [lit "repo"; lit "AgentFramework";
                 lit "appsettings.Development.json"];
       NewClient (lit "https://e") (lit " gpt ") (lit "k");
       CreateAgent (lit "say 'just a second' before answering question")
                   [lit "get_weather"] (lit "myagent");
       NewThread;
       Input (lit "user> ");
       Input (lit "user> ");
       Stdout (lit "agent> ");
       RunStream (lit "hi there");
       Stdout (lit "You said: ");
       Stdout (lit "hi there");
       Stdout nl;
       Input (lit "user> ");
       Stdout nl ],
     Ok tt).
Proof. vm_compute. reflexivity. Qed.

(* ===================================================================== *)
(** ** More about the loop *)
(* ===================================================================== *)

Lemma print_updates_events (us : list update) :
  (print_updates us).1 = map Stdout (List.filter truthy (omap text us)).
Proof.
  induction us as [|[[t|]] us IH]; [reflexivity| |]; cbn [print_updates text].
  - change (omap text (Update (Some t) :: us)) with (t :: omap text us).
    cbn [List.filter]. rewrite bind_events.
    destruct (truthy t); cbn [print_flush emit mret M_ret fst snd app map];
      rewrite IH; reflexivity.
  - change (omap text (Update None :: us)) with (omap text us).
    rewrite bind_events. cbn [mret M_ret fst snd app]. exact IH.
Qed.

Lemma stdout_text_app (a b : list event) :
  stdout_text (a ++ b) = stdout_text a ++ stdout_text b.
Proof. apply flat_map_app. Qed.

Lemma stdout_text_fragments (us : list update) :
  stdout_text (print_updates us).1 = concat (map update_text us).
Proof.
  rewrite print_updates_events.
  induction us as [|[[t|]] us IH]; [reflexivity| |].
  - change (omap text (Update (Some t) :: us)) with (t :: omap text us).
    cbn [map concat update_text text default List.filter].
    destruct t as [|c t]; cbn [truthy]; [exact IH|].
    cbn [map]. change (stdout_text (Stdout ?x :: ?r)) with (x ++ stdout_text r).
    f_equal. exact IH.
  - change (omap text (Update None :: us)) with (omap text us).
    cbn [map concat update_text text default]. exact IH.
Qed.

Section Turns.
Variable svc : chat_service.

(** A turn whose stream completes. *)
Lemma repl_turn_ok (a : agent svc) (th : thread svc) raw rest :
  strip raw <> [] ->
  failure (run_stream svc a (strip raw) th).1 = None ->
  repl svc a th (Line raw :: rest)
  = (Input prompt :: Stdout (lit "agent> ") :: RunStream (strip raw)
       :: (print_updates (updates (run_stream svc a (strip raw) th).1)).1
       ++ Stdout nl :: (repl svc a (run_stream svc a (strip raw) th).2 rest).1,
     (repl svc a (run_stream svc a (strip raw) th).2 rest).2).
Proof.
  intros Hne Hok. rewrite repl_turn by exact Hne. rewrite Hok.
  apply injective_projections.
  - repeat (rewrite bind_events; cbn [emit print_flush print fst snd app]).
    rewrite print_updates_ok. cbn [raise_opt fst snd app]. reflexivity.
  - repeat (rewrite bind_result; cbn [emit print_flush print fst snd]).
    rewrite print_updates_ok. cbn [raise_opt snd]. reflexivity.
Qed.

(** A turn whose stream fails. *)
Lemma repl_turn_fails (a : agent svc) (th : thread svc) raw rest e :
  strip raw <> [] ->
  failure (run_stream svc a (strip raw) th).1 = Some e ->
  repl svc a th (Line raw :: rest)
  = (Input prompt :: Stdout (lit "agent> ") :: RunStream (strip raw)
       :: (print_updates (updates (run_stream svc a (strip raw) th).1)).1,
     Raise e).
Proof.
  intros Hne Hf. rewrite repl_turn by exact Hne. rewrite Hf.
  apply injective_projections.
  - repeat (rewrite bind_events; cbn [emit print_flush print fst snd app]).
    rewrite print_updates_ok. cbn [raise_opt fst snd app].
    rewrite app_nil_r. reflexivity.
  - repeat (rewrite bind_result; cbn [emit print_flush print fst snd]).
    rewrite print_updates_ok. reflexivity.
Qed.

Lemma repl_loop_events (stdin : list read) :
  forall (a : agent svc) (th : thread svc),
    Forall loop_event (repl svc a th stdin).1.
Proof.
  induction stdin as [|[raw|] rest IH]; intros a th.
  - repeat constructor.
  - destruct (strip raw) as [|c t] eqn:E.
    + rewrite repl_blank by exact E. constructor; [exact I | apply IH].
    + assert (Hne : strip raw <> []) by congruence.
      assert (Hfrag : Forall loop_event
                (print_updates (updates (run_stream svc a (strip raw) th).1)).1).
      { rewrite print_updates_events. apply Forall_forall.
        intros e He. apply list_elem_of_fmap in He as (t' & -> & _). exact I. }
      destruct (failure (run_stream svc a (strip raw) th).1) as [e|] eqn:F.
      * rewrite (repl_turn_fails _ _ _ _ _ Hne F). cbn [fst].
        repeat (constructor; [exact I|]). exact Hfrag.
      * rewrite (repl_turn_ok _ _ _ _ Hne F). cbn [fst].
        repeat (constructor; [exact I|]).
        apply Forall_app. split; [exact Hfrag|].
        constructor; [exact I | apply IH].
  - repeat constructor.
Qed.
End Turns.

Lemma submitted_app (a b : list event) :
  submitted (a ++ b) = submitted a ++ submitted b.
Proof. apply omap_app. Qed.

Lemma submitted_fragments (us : list update) :
  submitted (print_updates us).1 = [].
Proof.
  rewrite print_updates_events.
  induction (List.filter truthy (omap text us)) as [|t l IH]; [reflexivity|exact IH].
Qed.

Lemma nonblank_strip (raw : pystr) :
  forallb py_isspace raw = false -> strip raw <> [].
Proof. intros H E. apply strip_nil in E. congruence. Qed.

(** X1. An interrupt at the read point ends the loop exactly as the end of
    input does, after any number of earlier lines: what standard input
    holds after it is never read. *)
Theorem interrupt_ends_like_eof (svc : chat_service) (pre rest : list read) :
  forall (a : agent svc) (th : thread svc),
    repl svc a th (pre ++ Interrupt :: rest) = repl svc a th pre.
Proof.
  induction pre as [|[raw|] pre IH]; intros a th; [reflexivity| |reflexivity].
  change ((Line raw :: pre) ++ Interrupt :: rest)
    with (Line raw :: (pre ++ Interrupt :: rest)).
  destruct (strip raw) as [|c t] eqn:E.
  - rewrite !repl_blank by exact E. rewrite IH. reflexivity.
  - assert (Hne : strip raw <> []) by congruence.
    destruct (failure (run_stream svc a (strip raw) th).1) as [e|] eqn:F.
    + rewrite !(repl_turn_fails _ _ _ _ _ _ Hne F). reflexivity.
    + rewrite !(repl_turn_ok _ _ _ _ _ Hne F). rewrite IH. reflexivity.
Qed.

(** X2. Lines of white space only, however many, never reach the service:
    the loop shows its prompt once per line and once more, prints the
    closing newline at the end of input, and returns. *)
Theorem blank_lines_only_prompt (svc : chat_service)
    (a : agent svc) (th : thread svc) (blanks : list pystr) :
  Forall (fun raw => forallb py_isspace raw = true) blanks ->
  repl svc a th (map Line blanks)
  = (repeat (Input prompt) (S (length blanks)) ++ [Stdout nl], Ok tt).
Proof.
  induction 1 as [|raw blanks Hraw _ IH]; [reflexivity|].
  cbn [map]. rewrite repl_blank by (apply strip_nil, Hraw).
  rewrite IH. reflexivity.
Qed.

Lemma blank_lines_only_prompt_witness :
  repl Sample.echo tt 0%nat (map Line [lit " "; []; [9; 0x3000]])
  = (repeat (Input prompt) 4 ++ [Stdout nl], Ok tt).
Proof.
  apply (blank_lines_only_prompt Sample.echo tt 0%nat [lit " "; []; [9; 0x3000]]).
  repeat constructor.
Defined.

(** X3. The fragments of a stream are written in arrival order, each as
    one write and nothing between them; an update whose text is [None] or
    empty writes nothing. What reaches standard output is the
    concatenation of the fragments. *)
Theorem stream_fragments_in_order (us : list update) :
  print_updates us
  = (map Stdout (List.filter truthy (omap text us)), Ok tt)
  /\ stdout_text (print_updates us).1 = concat (map update_text us).
Proof.
  split; [|apply stdout_text_fragments].
  apply injective_projections; [apply print_updates_events | apply print_updates_ok].
Qed.

(** X4. A turn whose stream completes writes "agent> ", the fragments and
    one newline, submits the stripped line once, and hands the thread the
    service returned to the rest of the loop. *)
Theorem completed_turn (svc : chat_service)
    (a : agent svc) (th : thread svc) (raw : pystr) (rest : list read) :
  forallb py_isspace raw = false ->
  failure (run_stream svc a (strip raw) th).1 = None ->
  let s := (run_stream svc a (strip raw) th).1 in
  let th' := (run_stream svc a (strip raw) th).2 in
  (repl svc a th (Line raw :: rest)).2 = (repl svc a th' rest).2
  /\ stdout_text (repl svc a th (Line raw :: rest)).1
     = lit "agent> " ++ concat (map update_text (updates s)) ++ nl
       ++ stdout_text (repl svc a th' rest).1
  /\ submitted (repl svc a th (Line raw :: rest)).1
     = strip raw :: submitted (repl svc a th' rest).1.
Proof.
  intros Hraw Hok s th'. apply nonblank_strip in Hraw.
  rewrite (repl_turn_ok _ _ _ _ _ Hraw Hok). cbn [fst snd].
  fold s th'. split; [reflexivity|]. split.
  - change (stdout_text (Input prompt :: Stdout ?x :: RunStream ?t :: ?r))
      with (x ++ stdout_text r).
    rewrite stdout_text_app, stdout_text_fragments.
    change (stdout_text (Stdout nl :: ?r)) with (nl ++ stdout_text r).
    reflexivity.
  - change (submitted (Input prompt :: Stdout ?x :: RunStream ?t :: ?r))
      with (t :: submitted r).
    rewrite submitted_app, submitted_fragments. reflexivity.
Qed.

Lemma completed_turn_witness :
  (repl Sample.echo tt 0%nat [Line (lit " hi ")]).2 = Ok tt
  /\ stdout_text (repl Sample.echo tt 0%nat [Line (lit " hi ")]).1
     = lit "agent> You said: hi" ++ nl ++ nl
  /\ submitted (repl Sample.echo tt 0%nat [Line (lit " hi ")]).1 = [lit "hi"].
Proof.
  apply (completed_turn Sample.echo tt 0%nat (lit " hi ") []); reflexivity.
Defined.

(** X5. When a stream fails, the fragments that arrived are written, the
    exception leaves the loop, no closing newline is written and no
    further line is read: the process ends with a status that is not 0. *)
Theorem failed_stream_ends_session (svc : chat_service)
    (a : agent svc) (th : thread svc) (raw : pystr) (rest : list read) (e : exn) :
  forallb py_isspace raw = false ->
  failure (run_stream svc a (strip raw) th).1 = Some e ->
  repl svc a th (Line raw :: rest)
  = (Input prompt :: Stdout (lit "agent> ") :: RunStream (strip raw)
       :: map Stdout
            (List.filter truthy
               (omap text (updates (run_stream svc a (strip raw) th).1))),
     Raise e)
  /\ (forall cancel_pending,
        exits_zero cancel_pending (repl svc a th (Line raw :: rest)) = false).
Proof.
  intros Hraw Hf. apply nonblank_strip in Hraw.
  rewrite (repl_turn_fails _ _ _ _ _ _ Hraw Hf), print_updates_events.
  split; [reflexivity | intros c; reflexivity].
Qed.

Lemma failed_stream_ends_session_witness :
  repl Faulty.broken_stream tt 0%nat [Line (lit "hi"); Line (lit "again")]
  = ([Input prompt; Stdout (lit "agent> "); RunStream (lit "hi");
      Stdout (lit "just a")],
     Raise (OtherError (lit "reset")))
  /\ (forall cancel_pending,
        exits_zero cancel_pending
          (repl Faulty.broken_stream tt 0%nat
             [Line (lit "hi"); Line (lit "again")]) = false).
Proof.
  apply (failed_stream_ends_session Faulty.broken_stream tt 0%nat (lit "hi")
           [Line (lit "again")] (OtherError (lit "reset"))); reflexivity.
Defined.



(* ===================================================================== *)
(** ** More about start-up *)
(* ===================================================================== *)

Section Startup.
Variable exists_ : Path -> bool.
Variable read_json : Path -> result dict.
Variable svc : chat_service.

(** [main], case by case on what each step returns. *)
Lemma main_unfold (here : Path) (stdin : list read) :
  let banner := Stdout (lit "=== Running: AgentFrameworkPython ===" ++ nl) in
  let instructions := lit "say 'just a second' before answering question" in
  let made := CreateAgent instructions [lit "get_weather"] (lit "myagent") in
  let S := resolved_settings exists_ read_json here in
  main exists_ read_json svc here stdin
  = match S.2 with
    | Raise x => (banner :: S.1, Raise x)
    | Ok (m, e, k) =>
        match AzureOpenAIChatClient svc e m k with
        | Raise x => (banner :: S.1 ++ [NewClient e m k], Raise x)
        | Ok c =>
            match create_agent svc c instructions [get_weather_tool]
                    (lit "myagent") with
            | Raise x => (banner :: S.1 ++ [NewClient e m k; made], Raise x)
            | Ok a =>
                match get_new_thread svc a with
                | Raise x =>
                    (banner :: S.1 ++ [NewClient e m k; made; NewThread],
                     Raise x)
                | Ok th =>
                    (banner :: S.1 ++ [NewClient e m k; made; NewThread]
                       ++ (repl svc a th stdin).1,
                     (repl svc a th stdin).2)
                end
            end
        end
    end.
Proof.
  intros banner instructions made S. unfold main. fold S.
  destruct S as [tr [[[m e] k]|x]]; cbn [fst snd].
  2: reflexivity.
  unfold print. rewrite bind_emit. fold banner.
  apply injective_projections; cbn [fst snd].
  - f_equal. rewrite bind_events. cbn [fst snd]. f_equal.
    rewrite bind_emit. cbn [fst]. fold instructions.
    destruct (AzureOpenAIChatClient svc e m k) as [c|x]; [|reflexivity].
    cbn [fst snd app]. f_equal.
    rewrite bind_events. cbn [lift fst snd app].
    rewrite bind_emit. cbn [fst].
    destruct (create_agent svc c instructions [get_weather_tool] (lit "myagent"))
      as [a|x]; [|reflexivity].
    cbn [fst snd]. f_equal.
    rewrite bind_events. cbn [lift fst snd app].
    rewrite bind_emit. cbn [fst].
    destruct (get_new_thread svc a) as [th|x]; [|reflexivity].
    cbn [fst snd]. f_equal.
    rewrite bind_events. reflexivity.
  - rewrite bind_result. cbn [snd].
    rewrite bind_emit. cbn [snd]. fold instructions.
    destruct (AzureOpenAIChatClient svc e m k) as [c|x];
      rewrite bind_result; cbn [lift snd]; [|reflexivity].
    rewrite bind_emit. cbn [snd].
    destruct (create_agent svc c instructions [get_weather_tool] (lit "myagent"))
      as [a|x]; rewrite bind_result; cbn [lift snd]; [|reflexivity].
    rewrite bind_emit. cbn [snd].
    destruct (get_new_thread svc a) as [th|x];
      rewrite bind_result; cbn [lift snd]; reflexivity.
Qed.
End Startup.

Section Settings.
Variable exists_ : Path -> bool.
Variable read_json : Path -> result dict.

(** [build_config], case by case on what the loads return. *)
Lemma build_config_cases (b : option Path) (d : Path) :
  build_config read_json b d
  = match b with
    | Some bp =>
        match read_json bp with
        | Raise x => ([ReadJson bp], Raise x)
        | Ok base =>
            match read_json d with
            | Raise x => ([ReadJson bp; ReadJson d], Raise x)
            | Ok dev => ([ReadJson bp; ReadJson d], Ok (dict_ior base dev))
            end
        end
    | None =>
        match read_json d with
        | Raise x => ([ReadJson d], Raise x)
        | Ok dev => ([ReadJson d], Ok dev)
        end
    end.
Proof.
  unfold build_config, load_json, lift. destruct b as [bp|].
  - destruct (read_json bp) as [base|x]; [|reflexivity].
    destruct (read_json d) as [dev|x]; [|reflexivity].
    cbn. rewrite dict_ior_empty. reflexivity.
  - destruct (read_json d) as [dev|x]; [|reflexivity].
    cbn. rewrite dict_ior_empty. reflexivity.
Qed.

(** [resolved_settings], case by case. *)
Lemma resolved_settings_cases (here : Path) :
  resolved_settings exists_ read_json here
  = match resolve_appsettings_paths exists_ here with
    | Raise x => ([], Raise x)
    | Ok (b, d) =>
        match (build_config read_json b d).2 with
        | Raise x => ((build_config read_json b d).1, Raise x)
        | Ok config => ((build_config read_json b d).1, validated config)
        end
    end.
Proof.
  unfold resolved_settings, validated.
  destruct (resolve_appsettings_paths exists_ here) as [[b d]|x]; [|reflexivity].
  cbn [lift mbind M_bind].
  destruct (build_config read_json b d) as [tr [config|x]]; [|reflexivity].
  cbn [fst snd lift mbind M_bind mret M_ret].
  destruct (require_str config (lit "ModelName")) as [m|x];
    [|cbn [app]; rewrite app_nil_r; reflexivity].
  destruct (require_str config (lit "Endpoint")) as [e|x];
    [|cbn [app]; rewrite app_nil_r; reflexivity].
  destruct (require_str config (lit "ApiKey")) as [k|x];
    cbn [app]; rewrite app_nil_r; reflexivity.
Qed.
End Settings.

Section SettingsFacts.
Variable exists_ : Path -> bool.
Variable read_json : Path -> result dict.

Lemma resolve_ok_facts (here : Path) b d :
  resolve_appsettings_paths exists_ here = Ok (b, d) ->
  d ∈ candidates here /\ exists_ d = true
  /\ (forall bp, b = Some bp -> bp = base_candidate here /\ exists_ bp = true).
Proof.
  unfold resolve_appsettings_paths.
  destruct (find exists_ (candidates here)) as [d'|] eqn:F; [|discriminate].
  intros [= <- <-]. apply find_first in F as (i & Hi & Hd & _).
  split; [apply list_elem_of_lookup; exists i; exact Hi|].
  split; [exact Hd|]. intros bp.
  destruct (exists_ (base_candidate here)) eqn:B; [|discriminate].
  intros [= <-]. split; [reflexivity | exact B].
Qed.

Lemma build_config_events (b : option Path) (d : Path) ev :
  ev ∈ (build_config read_json b d).1 ->
  ev = ReadJson d \/ exists bp, b = Some bp /\ ev = ReadJson bp.
Proof.
  rewrite build_config_cases. destruct b as [bp|].
  - destruct (read_json bp) as [base|x]; [destruct (read_json d) as [dev|x]|];
      cbn [fst]; intros H;
      repeat (apply elem_of_cons in H as [->|H];
              [first [left; reflexivity | right; exists bp; split; reflexivity]|]);
      inversion H.
  - destruct (read_json d) as [dev|x]; cbn [fst]; intros H;
      apply list_elem_of_singleton in H as ->; left; reflexivity.
Qed.

(** The only events of [resolved_settings] are loads of resolved files. *)
Lemma settings_events (here : Path) ev :
  ev ∈ (resolved_settings exists_ read_json here).1 ->
  exists p, ev = ReadJson p /\ exists_ p = true
            /\ (p = base_candidate here \/ p ∈ candidates here).
Proof.
  rewrite resolved_settings_cases.
  destruct (resolve_appsettings_paths exists_ here) as [[b d]|x] eqn:R.
  2:{ intros H. inversion H. }
  apply resolve_ok_facts in R as (Hd & Hex & Hb).
  intros H.
  assert (H' : ev ∈ (build_config read_json b d).1)
    by (destruct (build_config read_json b d).2; exact H).
  apply build_config_events in H' as [->|(bp & -> & ->)].
  - exists d. auto.
  - destruct (Hb bp eq_refl) as [-> Hbp]. exists (base_candidate here). auto.
Qed.
End SettingsFacts.

(** X7. When the base file is found but cannot be loaded, [main] stops on
    that error: the development file is never read and no client is
    built. *)
Theorem unreadable_base_stops_main
    (exists_ : Path -> bool) (read_json : Path -> result dict)
    (svc : chat_service) (here bp dp : Path) (stdin : list read) (x : exn) :
  resolve_appsettings_paths exists_ here = Ok (Some bp, dp) ->
  read_json bp = Raise x ->
  main exists_ read_json svc here stdin
  = ([Stdout (lit "=== Running: AgentFrameworkPython ===" ++ nl); ReadJson bp],
     Raise x).
Proof.
  intros Hres Hread. rewrite main_unfold. cbv zeta.
  rewrite resolved_settings_cases, Hres, build_config_cases, Hread.
  reflexivity.
Qed.

Lemma unreadable_base_stops_main_witness :
  main (Sample.exists_in Sample.two_layers) Faulty.unreadable_base
       Sample.echo Sample.here [Line (lit "hi")]
  = ([Stdout (lit "=== Running: AgentFrameworkPython ===" ++ nl);
      ReadJson (base_candidate Sample.here)],
     Raise (OtherError (lit "JSONDecodeError"))).
Proof.
  apply (unreadable_base_stops_main (Sample.exists_in Sample.two_layers)
           Faulty.unreadable_base Sample.echo Sample.here
           (base_candidate Sample.here)
           (Sample.here // lit "appsettings.Development.json"));
    vm_compute; reflexivity.
Defined.

(** X8. When the development file cannot be loaded, [main] stops on that
    error after reading the base file, if there is one, and builds no
    client. *)
Theorem unreadable_dev_stops_main
    (exists_ : Path -> bool) (read_json : Path -> result dict)
    (svc : chat_service) (here dp : Path) (b : option Path)
    (stdin : list read) (x : exn) :
  resolve_appsettings_paths exists_ here = Ok (b, dp) ->
  (forall bp, b = Some bp -> exists base, read_json bp = Ok base) ->
  read_json dp = Raise x ->
  main exists_ read_json svc here stdin
  = (Stdout (lit "=== Running: AgentFrameworkPython ===" ++ nl)
       :: match b with Some bp => [ReadJson bp; ReadJson dp]
                     | None => [ReadJson dp] end,
     Raise x).
Proof.
  intros Hres Hbase Hread. rewrite main_unfold. cbv zeta.
  rewrite resolved_settings_cases, Hres, build_config_cases, Hread.
  destruct b as [bp|]; [|reflexivity].
  destruct (Hbase bp eq_refl) as [base ->]. reflexivity.
Qed.

Lemma unreadable_dev_stops_main_witness :
  main (Sample.exists_in Sample.two_layers) Faulty.unreadable_dev
       Sample.echo Sample.here [Line (lit "hi")]
  = ([Stdout (lit "=== Running: AgentFrameworkPython ===" ++ nl);
      ReadJson (base_candidate Sample.here);
      ReadJson (Sample.here // lit "appsettings.Development.json")],
     Raise (OtherError (lit "JSONDecodeError"))).
Proof.
  apply (unreadable_dev_stops_main (Sample.exists_in Sample.two_layers)
           Faulty.unreadable_dev Sample.echo Sample.here
           (Sample.here // lit "appsettings.Development.json")
           (Some (base_candidate Sample.here))).
  - vm_compute. reflexivity.
  - intros bp [= <-]. exists Sample.base_doc. vm_compute. reflexivity.
  - vm_compute. reflexivity.
Defined.

(** X9. The keys of the merged configuration are the keys of the two
    documents together. An empty development document leaves the base
    document as it is, and a document merged over itself is unchanged. *)
Theorem merged_keys (read_json : Path -> result dict)
    (bp dp : Path) (base dev : dict) :
  read_json bp = Ok base -> read_json dp = Ok dev ->
  exists merged,
    (build_config read_json (Some bp) dp).2 = Ok merged
    /\ dom merged = dom base ∪ dom dev
    /\ (dev = ∅ -> merged = base)
    /\ (base = dev -> merged = dev).
Proof.
  intros Hb Hd. exists (dict_ior base dev).
  rewrite build_config_cases, Hb, Hd. split; [reflexivity|].
  unfold dict_ior. split; [|split].
  - rewrite dom_union_L. apply (comm_L (∪)).
  - intros ->. apply (left_id_L ∅ (∪)).
  - intros ->. apply (idemp_L (∪)).
Qed.

Lemma merged_keys_witness :
  exists merged,
    (build_config (Sample.read_in Sample.two_layers)
       (Some (base_candidate Sample.here))
       (Sample.here // lit "appsettings.Development.json")).2 = Ok merged
    /\ dom merged = dom Sample.base_doc ∪ dom Sample.dev_doc
    /\ (Sample.dev_doc = ∅ -> merged = Sample.base_doc)
    /\ (Sample.base_doc = Sample.dev_doc -> merged = Sample.dev_doc).
Proof.
  apply (merged_keys (Sample.read_in Sample.two_layers)
           (base_candidate Sample.here)
           (Sample.here // lit "appsettings.Development.json")
           Sample.base_doc Sample.dev_doc); vm_compute; reflexivity.
Defined.

(** X10. Validation goes through ModelName, Endpoint and ApiKey in this
    order and stops at the first that fails: its error is the one [main]
    gets, whatever the state of the keys after it. *)
Theorem validation_order
    (exists_ : Path -> bool) (read_json : Path -> result dict)
    (here d : Path) (b : option Path) (tr : list event) (config : dict) :
  resolve_appsettings_paths exists_ here = Ok (b, d) ->
  build_config read_json b d = (tr, Ok config) ->
  (forall x, require_str config (lit "ModelName") = Raise x ->
             resolved_settings exists_ read_json here = (tr, Raise x))
  /\ (forall m x, require_str config (lit "ModelName") = Ok m ->
                  require_str config (lit "Endpoint") = Raise x ->
                  resolved_settings exists_ read_json here = (tr, Raise x))
  /\ (forall m e x, require_str config (lit "ModelName") = Ok m ->
                    require_str config (lit "Endpoint") = Ok e ->
                    require_str config (lit "ApiKey") = Raise x ->
                    resolved_settings exists_ read_json here = (tr, Raise x)).
Proof.
  intros Hres Hb. rewrite resolved_settings_cases, Hres, Hb. cbn [fst snd].
  unfold validated. split; [|split].
  - intros x ->. reflexivity.
  - intros m x -> ->. reflexivity.
  - intros m e x -> -> ->. reflexivity.
Qed.

Lemma validation_order_witness :
  resolved_settings (Sample.exists_in Faulty.all_bad_fs)
    (Sample.read_in Faulty.all_bad_fs) Sample.here
  = ([ReadJson (Sample.here // lit "appsettings.Development.json")],
     Raise (ValueError
              (lit "ModelName not found in appsettings.Development.json"))).
Proof.
  destruct (validation_order (Sample.exists_in Faulty.all_bad_fs)
              (Sample.read_in Faulty.all_bad_fs) Sample.here
              (Sample.here // lit "appsettings.Development.json") None
              [ReadJson (Sample.here // lit "appsettings.Development.json")]
              Faulty.all_bad_doc) as (Hfirst & _).
  - vm_compute. reflexivity.
  - vm_compute. reflexivity.
  - apply Hfirst. vm_compute. reflexivity.
Defined.

(** X11. A required key that only the base file holds is taken from it:
    with the model name in the base document and the other two values in
    the development document, the settings are these three strings. *)
Theorem base_supplies_missing_key
    (exists_ : Path -> bool) (read_json : Path -> result dict)
    (here bp dp : Path) (base dev : dict) (m e k : pystr) :
  resolve_appsettings_paths exists_ here = Ok (Some bp, dp) ->
  read_json bp = Ok base -> read_json dp = Ok dev ->
  dev !! lit "ModelName" = None ->
  base !! lit "ModelName" = Some (JStr m) -> forallb py_isspace m = false ->
  dev !! lit "Endpoint" = Some (JStr e) -> forallb py_isspace e = false ->
  dev !! lit "ApiKey" = Some (JStr k) -> forallb py_isspace k = false ->
  resolved_settings exists_ read_json here
  = ([ReadJson bp; ReadJson dp], Ok (m, e, k)).
Proof.
  intros Hres Hb Hd Hnone Hm Hm' He He' Hk Hk'.
  rewrite resolved_settings_cases, Hres, build_config_cases, Hb, Hd.
  cbn [fst snd]. unfold validated.
  rewrite (require_str_ok _ _ m), (require_str_ok _ _ e), (require_str_ok _ _ k);
    try assumption; try reflexivity;
    rewrite dict_ior_lookup.
  - rewrite Hk. reflexivity.
  - rewrite He. reflexivity.
  - rewrite Hnone. exact Hm.
Qed.

Lemma base_supplies_missing_key_witness :
  resolved_settings (Sample.exists_in Faulty.layered_fs)
    (Sample.read_in Faulty.layered_fs) Sample.here
  = ([ReadJson (base_candidate Sample.here);
      ReadJson (Sample.here // lit "appsettings.Development.json")],
     Ok (lit "gpt", lit "https://e", lit "k")).
Proof.
  apply (base_supplies_missing_key (Sample.exists_in Faulty.layered_fs)
           (Sample.read_in Faulty.layered_fs) Sample.here
           (base_candidate Sample.here)
           (Sample.here // lit "appsettings.Development.json")
           Faulty.base_with_model Faulty.dev_without_model);
    vm_compute; reflexivity.
Defined.

(** X12. A value of the development document hides the base value even
    when it is unusable: if the development document has ModelName as
    anything but a string with a character that is not white space,
    validation fails on ModelName whatever the base document holds. *)
Theorem dev_value_shadows_base
    (exists_ : Path -> bool) (read_json : Path -> result dict)
    (here bp dp : Path) (base dev : dict) (v : json) :
  resolve_appsettings_paths exists_ here = Ok (Some bp, dp) ->
  read_json bp = Ok base -> read_json dp = Ok dev ->
  dev !! lit "ModelName" = Some v ->
  (forall s, v = JStr s -> forallb py_isspace s = true) ->
  resolved_settings exists_ read_json here
  = ([ReadJson bp; ReadJson dp],
     Raise (ValueError
              (lit "ModelName not found in appsettings.Development.json"))).
Proof.
  intros Hres Hb Hd Hv Hbad.
  rewrite resolved_settings_cases, Hres, build_config_cases, Hb, Hd.
  cbn [fst snd]. unfold validated.
  destruct (require_str_cases (dict_ior base dev) (lit "ModelName"))
    as [(s & Hk & Hs & _)|[_ ->]]; [|reflexivity].
  rewrite dict_ior_lookup, Hv in Hk. injection Hk as ->.
  rewrite (Hbad s eq_refl) in Hs. discriminate.
Qed.

Lemma dev_value_shadows_base_witness :
  resolved_settings (Sample.exists_in Faulty.shadowed_fs)
    (Sample.read_in Faulty.shadowed_fs) Sample.here
  = ([ReadJson (base_candidate Sample.here);
      ReadJson (Sample.here // lit "appsettings.Development.json")],
     Raise (ValueError
              (lit "ModelName not found in appsettings.Development.json"))).
Proof.
  apply (dev_value_shadows_base (Sample.exists_in Faulty.shadowed_fs)
           (Sample.read_in Faulty.shadowed_fs) Sample.here
           (base_candidate Sample.here)
           (Sample.here // lit "appsettings.Development.json")
           Faulty.base_with_model Faulty.dev_blank_model (JStr (lit " ")));
    try (vm_compute; reflexivity).
  intros s [= <-]. reflexivity.
Defined.

(** X13. Any failure while resolving the settings is fatal: the exception
    leaves [main] as it is, the exit status is not 0, and all [main] has
    done is print its banner and load files: no client, no prompt. *)
Theorem config_failure_is_fatal
    (exists_ : Path -> bool) (read_json : Path -> result dict)
    (svc : chat_service) (here : Path) (stdin : list read) (x : exn) :
  (resolved_settings exists_ read_json here).2 = Raise x ->
  main exists_ read_json svc here stdin
  = (Stdout (lit "=== Running: AgentFrameworkPython ===" ++ nl)
       :: (resolved_settings exists_ read_json here).1,
     Raise x)
  /\ (forall cancel_pending,
        exits_zero cancel_pending (main exists_ read_json svc here stdin)
        = false)
  /\ Forall (fun ev => exists p, ev = ReadJson p)
            (resolved_settings exists_ read_json here).1.
Proof.
  intros Hx. rewrite main_unfold. cbv zeta. rewrite Hx.
  split; [reflexivity|]. split; [intros c; reflexivity|].
  apply Forall_forall. intros ev Hev.
  apply settings_events in Hev as (p & -> & _). exists p. reflexivity.
Qed.

Lemma config_failure_is_fatal_witness :
  main (Sample.exists_in Sample.blank_model_fs)
       (Sample.read_in Sample.blank_model_fs) Sample.echo Sample.here
       [Line (lit "hi")]
  = (Stdout (lit "=== Running: AgentFrameworkPython ===" ++ nl)
       :: (resolved_settings (Sample.exists_in Sample.blank_model_fs)
             (Sample.read_in Sample.blank_model_fs) Sample.here).1,
     Raise (ValueError
              (lit "ModelName not found in appsettings.Development.json")))
  /\ (forall cancel_pending,
        exits_zero cancel_pending
          (main (Sample.exists_in Sample.blank_model_fs)
             (Sample.read_in Sample.blank_model_fs) Sample.echo
             Sample.here [Line (lit "hi")]) = false)
  /\ Forall (fun ev => exists p, ev = ReadJson p)
            (resolved_settings (Sample.exists_in Sample.blank_model_fs)
               (Sample.read_in Sample.blank_model_fs) Sample.here).1.
Proof.
  apply (config_failure_is_fatal (Sample.exists_in Sample.blank_model_fs)
           (Sample.read_in Sample.blank_model_fs) Sample.echo Sample.here
           [Line (lit "hi")]).
  vm_compute. reflexivity.
Defined.

(** X14. When the settings are valid and the service accepts each step,
    [main] builds the client from (endpoint, model name, key), creates one
    agent named myagent with the single tool get_weather, opens one
    thread, and runs the loop with that agent and thread. *)
Theorem startup_sequence
    (exists_ : Path -> bool) (read_json : Path -> result dict)
    (svc : chat_service) (here : Path) (stdin : list read)
    (tr : list event) (m e k : pystr)
    (c : client svc) (a : agent svc) (th : thread svc) :
  resolved_settings exists_ read_json here = (tr, Ok (m, e, k)) ->
  AzureOpenAIChatClient svc e m k = Ok c ->
  create_agent svc c (lit "say 'just a second' before answering question")
    [get_weather_tool] (lit "myagent") = Ok a ->
  get_new_thread svc a = Ok th ->
  main exists_ read_json svc here stdin
  = (Stdout (lit "=== Running: AgentFrameworkPython ===" ++ nl)
       :: tr
       ++ [NewClient e m k;
           CreateAgent (lit "say 'just a second' before answering question")
                       [lit "get_weather"] (lit "myagent");
           NewThread]
       ++ (repl svc a th stdin).1,
     (repl svc a th stdin).2).
Proof.
  intros HS Hc Ha Hth. rewrite main_unfold. cbv zeta.
  rewrite HS. cbn [fst snd]. rewrite Hc, Ha, Hth. reflexivity.
Qed.

Lemma startup_sequence_witness :
  main (Sample.exists_in Sample.valid_fs) (Sample.read_in Sample.valid_fs)
       Sample.echo Sample.here []
  = (Stdout (lit "=== Running: AgentFrameworkPython ===" ++ nl)
       :: [ReadJson (parent Sample.here // lit "AgentFramework"
                       // lit "appsettings.Development.json")]
       ++ [NewClient (lit "https://e") (lit " gpt ") (lit "k");
           CreateAgent (lit "say 'just a second' before answering question")
                       [lit "get_weather"] (lit "myagent");
           NewThread]
       ++ (repl Sample.echo tt 0%nat []).1,
     (repl Sample.echo tt 0%nat []).2).
Proof.
  apply (startup_sequence (Sample.exists_in Sample.valid_fs)
           (Sample.read_in Sample.valid_fs) Sample.echo Sample.here []
           _ (lit " gpt ") (lit "https://e") (lit "k") tt tt 0%nat);
    vm_compute; reflexivity.
Defined.

(** X15. When the client cannot be built, [main] stops on that error with
    a status that is not 0: no agent is created, no thread opened, nothing
    is read from standard input. *)
Theorem client_failure_stops_main
    (exists_ : Path -> bool) (read_json : Path -> result dict)
    (svc : chat_service) (here : Path) (stdin : list read)
    (tr : list event) (m e k : pystr) (x : exn) :
  resolved_settings exists_ read_json here = (tr, Ok (m, e, k)) ->
  AzureOpenAIChatClient svc e m k = Raise x ->
  main exists_ read_json svc here stdin
  = (Stdout (lit "=== Running: AgentFrameworkPython ===" ++ nl)
       :: tr ++ [NewClient e m k],
     Raise x)
  /\ (forall cancel_pending,
        exits_zero cancel_pending (main exists_ read_json svc here stdin)
        = false).
Proof.
  intros HS Hc. rewrite main_unfold. cbv zeta.
  rewrite HS. cbn [fst snd]. rewrite Hc.
  split; [reflexivity | intros c'; reflexivity].
Qed.

Lemma client_failure_stops_main_witness :
  main (Sample.exists_in Sample.valid_fs) (Sample.read_in Sample.valid_fs)
       Faulty.refusing Sample.here [Line (lit "hi")]
  = (Stdout (lit "=== Running: AgentFrameworkPython ===" ++ nl)
       :: [ReadJson (parent Sample.here // lit "AgentFramework"
                       // lit "appsettings.Development.json")]
       ++ [NewClient (lit "https://e") (lit " gpt ") (lit "k")],
     Raise (OtherError (lit "auth")))
  /\ (forall cancel_pending,
        exits_zero cancel_pending
          (main (Sample.exists_in Sample.valid_fs)
             (Sample.read_in Sample.valid_fs) Faulty.refusing
             Sample.here [Line (lit "hi")]) = false).
Proof.
  apply (client_failure_stops_main (Sample.exists_in Sample.valid_fs)
           (Sample.read_in Sample.valid_fs) Faulty.refusing Sample.here
           [Line (lit "hi")] _ (lit " gpt ") (lit "https://e") (lit "k"));
    vm_compute; reflexivity.
Defined.

(** Where an event of [main] can come from. *)
Lemma main_events_cases
    (exists_ : Path -> bool) (read_json : Path -> result dict)
    (svc : chat_service) (here : Path) (stdin : list read) (ev : event) :
  ev ∈ events (main exists_ read_json svc here stdin) ->
  ev = Stdout (lit "=== Running: AgentFrameworkPython ===" ++ nl)
  \/ ev ∈ (resolved_settings exists_ read_json here).1
  \/ exists m e k,
       (resolved_settings exists_ read_json here).2 = Ok (m, e, k)
       /\ (ev = NewClient e m k
           \/ ev = CreateAgent
                     (lit "say 'just a second' before answering question")
                     [lit "get_weather"] (lit "myagent")
           \/ ev = NewThread
           \/ loop_event ev).
Proof.
  unfold events. rewrite main_unfold. cbv zeta.
  destruct (resolved_settings exists_ read_json here) as [tr [[[m e] k]|x]];
    cbn [fst snd].
  2:{ intros H. apply elem_of_cons in H as [->|H]; auto. }
  intros H.
  destruct (AzureOpenAIChatClient svc e m k) as [c|x].
  2:{ cbn [fst] in H. apply elem_of_cons in H as [->|H]; [auto|].
      apply elem_of_app in H as [H|H]; [auto|].
      right. right. exists m, e, k. split; [reflexivity|].
      repeat (apply elem_of_cons in H as [->|H]; [auto 6|]). inversion H. }
  destruct (create_agent svc c _ _ _) as [a|x].
  2:{ cbn [fst] in H. apply elem_of_cons in H as [->|H]; [auto|].
      apply elem_of_app in H as [H|H]; [auto|].
      right. right. exists m, e, k. split; [reflexivity|].
      repeat (apply elem_of_cons in H as [->|H]; [auto 6|]). inversion H. }
  destruct (get_new_thread svc a) as [th|x].
  2:{ cbn [fst] in H. apply elem_of_cons in H as [->|H]; [auto|].
      apply elem_of_app in H as [H|H]; [auto|].
      right. right. exists m, e, k. split; [reflexivity|].
      repeat (apply elem_of_cons in H as [->|H]; [auto 6|]). inversion H. }
  cbn [fst] in H. apply elem_of_cons in H as [->|H]; [auto|].
  apply elem_of_app in H as [H|H]; [auto|].
  right. right. exists m, e, k. split; [reflexivity|].
  apply elem_of_app in H as [H|H].
  { repeat (apply elem_of_cons in H as [->|H]; [auto 6|]). inversion H. }
  right. right. right.
  pose proof (repl_loop_events svc stdin a th) as Hloop.
  rewrite Forall_forall in Hloop. apply Hloop, H.
Qed.



(** X17. [main] loads no file other than the ones resolution found: every
    file it reads exists and is the base location or one of the three
    development candidates. *)
Theorem only_resolved_files_are_read
    (exists_ : Path -> bool) (read_json : Path -> result dict)
    (svc : chat_service) (here : Path) (stdin : list read) (p : Path) :
  ReadJson p ∈ events (main exists_ read_json svc here stdin) ->
  exists_ p = true /\ (p = base_candidate here \/ p ∈ candidates here).
Proof.
  intros H. apply main_events_cases in H as [H|[H|(m & e & k & HS & H)]].
  - discriminate.
  - apply settings_events in H as (q & [= ->] & Hq). exact Hq.
  - destruct H as [H|[H|[H|H]]]; try discriminate. destruct H.
Qed.

Lemma only_resolved_files_are_read_witness :
  Sample.exists_in Sample.two_layers (base_candidate Sample.here) = true
  /\ (base_candidate Sample.here = base_candidate Sample.here
      \/ base_candidate Sample.here ∈ candidates Sample.here).
Proof.
  apply (only_resolved_files_are_read (Sample.exists_in Sample.two_layers)
           (Sample.read_in Sample.two_layers) Sample.echo Sample.here []).
  apply list_elem_of_lookup. exists 1%nat. vm_compute. reflexivity.
Defined.

(** X18. When the agent cannot be created, or its thread cannot be opened,
    [main] stops on that error: the loop never starts, so nothing is read
    from standard input and no text is submitted. *)
Theorem agent_failure_stops_main
    (exists_ : Path -> bool) (read_json : Path -> result dict)
    (svc : chat_service) (here : Path) (stdin : list read)
    (tr : list event) (m e k : pystr) (c : client svc) (x : exn) :
  resolved_settings exists_ read_json here = (tr, Ok (m, e, k)) ->
  AzureOpenAIChatClient svc e m k = Ok c ->
  (create_agent svc c (lit "say 'just a second' before answering question")
     [get_weather_tool] (lit "myagent") = Raise x
   \/ exists a,
        create_agent svc c (lit "say 'just a second' before answering question")
          [get_weather_tool] (lit "myagent") = Ok a
        /\ get_new_thread svc a = Raise x) ->
  (main exists_ read_json svc here stdin).2 = Raise x
  /\ (forall prompt', Input prompt'
                      ∉ events (main exists_ read_json svc here stdin))
  /\ submitted (events (main exists_ read_json svc here stdin)) = [].
Proof.
  intros HS Hc Hfail.
  assert (Htr : forall ev, ev ∈ tr -> exists p, ev = ReadJson p).
  { intros ev Hev. replace tr with (resolved_settings exists_ read_json here).1
      in Hev by (rewrite HS; reflexivity).
    apply settings_events in Hev as (p & -> & _). exists p. reflexivity. }
  assert (Hsub : submitted tr = []).
  { clear -Htr. induction tr as [|ev tr IH]; [reflexivity|].
    destruct (Htr ev ltac:(left)) as [p ->].
    apply IH. intros ev' Hev'. apply Htr. right. exact Hev'. }
  unfold events. rewrite main_unfold. cbv zeta.
  rewrite HS. cbn [fst snd]. rewrite Hc.
  destruct Hfail as [->|(a & -> & ->)]; cbn [fst snd].
  - split; [reflexivity|]. split.
    + intros prompt' H. apply elem_of_cons in H as [H|H]; [discriminate|].
      apply elem_of_app in H as [H|H].
      * apply Htr in H as [p H]. discriminate.
      * repeat (apply elem_of_cons in H as [H|H]; [discriminate|]). inversion H.
    + change (submitted (Stdout ?s :: ?r)) with (submitted r).
      rewrite submitted_app, Hsub. reflexivity.
  - split; [reflexivity|]. split.
    + intros prompt' H. apply elem_of_cons in H as [H|H]; [discriminate|].
      apply elem_of_app in H as [H|H].
      * apply Htr in H as [p H]. discriminate.
      * repeat (apply elem_of_cons in H as [H|H]; [discriminate|]). inversion H.
    + change (submitted (Stdout ?s :: ?r)) with (submitted r).
      rewrite submitted_app, Hsub. reflexivity.
Qed.

Lemma agent_failure_stops_main_witness :
  (main (Sample.exists_in Sample.valid_fs) (Sample.read_in Sample.valid_fs)
        Faulty.no_agent Sample.here [Line (lit "hi")]).2
  = Raise (OtherError (lit "agent"))
  /\ (forall prompt',
        Input prompt'
        ∉ events (main (Sample.exists_in Sample.valid_fs)
                    (Sample.read_in Sample.valid_fs) Faulty.no_agent
                    Sample.here [Line (lit "hi")]))
  /\ submitted (events (main (Sample.exists_in Sample.valid_fs)
                          (Sample.read_in Sample.valid_fs) Faulty.no_agent
                          Sample.here [Line (lit "hi")])) = [].
Proof.
  apply (agent_failure_stops_main (Sample.exists_in Sample.valid_fs)
           (Sample.read_in Sample.valid_fs) Faulty.no_agent Sample.here
           [Line (lit "hi")]
           [ReadJson (parent Sample.here // lit "AgentFramework"
                        // lit "appsettings.Development.json")]
           (lit " gpt ") (lit "https://e") (lit "k") tt).
  - vm_compute. reflexivity.
  - reflexivity.
  - left. reflexivity.
Defined.

(** X19. Resolution looks at four paths only, the base location and the
    three development candidates: two file systems that agree on these
    give the same result, whatever else they hold. *)
Theorem resolution_looks_at_four_paths
    (exists_ exists' : Path -> bool) (here : Path) :
  exists_ (base_candidate here) = exists' (base_candidate here) ->
  (forall c, c ∈ candidates here -> exists_ c = exists' c) ->
  resolve_appsettings_paths exists_ here
  = resolve_appsettings_paths exists' here.
Proof.
  intros Hbase Hcands. unfold resolve_appsettings_paths. rewrite Hbase.
  assert (Hfind : find exists_ (candidates here)
                  = find exists' (candidates here)).
  { induction (candidates here) as [|c l IH]; [reflexivity|].
    cbn [find]. rewrite <- (Hcands c) by left.
    destruct (exists_ c); [reflexivity|].
    apply IH. intros c' Hc'. apply Hcands. right. exact Hc'. }
  rewrite Hfind. reflexivity.
Qed.

Lemma resolution_looks_at_four_paths_witness :
  resolve_appsettings_paths (Sample.exists_in Sample.valid_fs) Sample.here
  = resolve_appsettings_paths
      (Sample.exists_in (([lit "tmp"; lit "notes.txt"], ∅) :: Sample.valid_fs))
      Sample.here.
Proof.
  apply (resolution_looks_at_four_paths (Sample.exists_in Sample.valid_fs)
           (Sample.exists_in
              (([lit "tmp"; lit "notes.txt"], ∅) :: Sample.valid_fs))
           Sample.here).
  - vm_compute. reflexivity.
  - intros c Hc. unfold candidates in Hc.
    repeat (apply elem_of_cons in Hc as [->|Hc]; [vm_compute; reflexivity|]).
    inversion Hc.
Defined.

(** X20. What [require_str] returns is the stored value itself, a string,
    and it has a character that is not white space. *)
Theorem require_str_returns_stored_value (config : dict) (key s : pystr) :
  require_str config key = Ok s ->
  config !! key = Some (JStr s)
  /\ strip s <> []
  /\ exists c, c ∈ s /\ py_isspace c = false.
Proof.
  intros H.
  destruct (require_str_cases config key) as [(s' & Hk & Hs & Hok)|[_ Hr]];
    [|congruence].
  rewrite Hok in H. injection H as ->.
  split; [exact Hk|]. split; [apply nonblank_strip, Hs|].
  clear -Hs. induction s as [|c s IH]; [discriminate|].
  cbn [forallb] in Hs. destruct (py_isspace c) eqn:C.
  - destruct (IH Hs) as (c' & Hc' & Hws). exists c'. split; [right|]; assumption.
  - exists c. split; [left | exact C].
Qed.

Lemma require_str_returns_stored_value_witness :
  Sample.valid_doc !! lit "ModelName" = Some (JStr (lit " gpt "))
  /\ strip (lit " gpt ") <> []
  /\ exists c, c ∈ lit " gpt " /\ py_isspace c = false.
Proof.
  apply (require_str_returns_stored_value Sample.valid_doc (lit "ModelName")).
  vm_compute. reflexivity.
Defined.

(** X21. Stripping is idempotent: the text submitted to the service is
    left unchanged by stripping it again. *)
Theorem strip_idempotent (raw : pystr) : strip (strip raw) = strip raw.
Proof.
  destruct (strip_by_spec py_isspace raw) as (_ & Hhead & Hlast).
  unfold strip.
  rewrite <- (app_nil_r (strip_by py_isspace raw)) at 1.
  apply (strip_by_unique py_isspace [] (strip_by py_isspace raw) []);
    [reflexivity | reflexivity | exact Hhead | exact Hlast].
Qed.
